(** * Maven repositories credentials module (LaZagne, Windows)

    A shallow embedding of
    [Windows/src/LaZagne/softwares/maven/mavenrepositories.py] and the
    properties of its three stages: the master password lookup
    ([extract_master_password]), the scan of [settings.xml]
    ([extract_repositories_credentials]) and the per-repository
    classification done by the loop of [run].

    Python dictionaries are finite maps with string keys, Python
    exceptions are the [Raise] case of a result type, and everything the
    module reads from outside (the environment variable, the file system,
    the XML parser) is gathered in a record [World]. *)

From Stdlib Require Import Ascii String.
From stdpp Require Import gmap strings list fin_maps.

Open Scope string_scope.

(** ** Python string methods *)

Module Py.

(** The characters [strip()] removes from a byte string (the [str] of
    Python 2, which the module is written for): [string.whitespace],
    that is space, tab, line feed, vertical tab, form feed and carriage
    return. Strings here are byte strings: of a text that ElementTree
    hands over as a Unicode string Python strips more (the no-break
    space and the like), which this model does not tell. *)
Definition whitespace : list ascii :=
  [" "; "009"; "010"; "011"; "012"; "013"]%char.

Definition is_space (c : ascii) : bool :=
  existsb (Ascii.eqb c) whitespace.

(** The one-character string a line feed makes, Python's ["\n"]. *)
Definition newline : string := String "010"%char EmptyString.

Fixpoint lstrip (s : string) : string :=
  match s with
  | EmptyString => EmptyString
  | String c s' => if is_space c then lstrip s' else s
  end.

Fixpoint rstrip (s : string) : string :=
  match s with
  | EmptyString => EmptyString
  | String c s' =>
      match rstrip s' with
      | EmptyString => if is_space c then EmptyString else String c EmptyString
      | r => String c r
      end
  end.

(** [s.strip()] *)
Definition strip (s : string) : string := rstrip (lstrip s).

(** [s.startswith(p)] *)
Fixpoint startswith (s p : string) {struct p} : bool :=
  match p with
  | EmptyString => true
  | String a p' =>
      match s with
      | EmptyString => false
      | String b s' => Ascii.eqb a b && startswith s' p'
      end
  end.

(** [s.endswith(p)]: [p] is [s] or ends the tail of [s]. *)
Fixpoint endswith (s p : string) : bool :=
  String.eqb s p ||
  match s with
  | EmptyString => false
  | String _ s' => endswith s' p
  end.

(** [s.replace("", new)] puts [new] before every character and at the
    end. *)
Fixpoint intersperse (new s : string) : string :=
  match s with
  | EmptyString => new
  | String c s' => new +:+ String c (intersperse new s')
  end.

(** The scan of [s.replace(old, new)] for a non-empty [old]: [skip]
    counts the characters of a match still to be passed over. *)
Fixpoint replace_from (old new : string) (skip : nat) (s : string) : string :=
  match s with
  | EmptyString => EmptyString
  | String c s' =>
      match skip with
      | S k => replace_from old new k s'
      | O =>
          if startswith s old
          then new +:+ replace_from old new (String.length old - 1) s'
          else String c (replace_from old new 0 s')
      end
  end.

(** [s.replace(old, new)]: every occurrence of [old], left to right and
    without overlap. *)
Definition replace (s old new : string) : string :=
  match old with
  | EmptyString => intersperse new s
  | _ => replace_from old new 0 s
  end.

(** [s] does not start with a whitespace character. *)
Definition no_leading_space (s : string) : Prop :=
  match s with
  | EmptyString => True
  | String c _ => is_space c = false
  end.

(** [s] without the occurrences of the character [c]. *)
Fixpoint without (c : ascii) (s : string) : string :=
  match s with
  | EmptyString => EmptyString
  | String a s' => if Ascii.eqb c a then without c s' else String a (without c s')
  end.

End Py.

(** ** Exceptions *)

Inductive exn : Type :=
| KeyError (key : string)     (* [d[key]] on a dict without [key] *)
| AttributeError              (* a method called on [None] *)
| TypeError                   (* [None] where a [str] is needed *)
| IOError                     (* [open] or [read] raised: an [IOError] or
                                 whatever else the read raises, a decoding
                                 error for one; the model tells no more *)
| ParseError.                 (* [ET.parse] raised, whatever it raised *)

Inductive result (A : Type) : Type :=
| Ok (a : A)
| Raise (e : exn).
Arguments Ok {A} a.
Arguments Raise {A} e.

Definition bind {A B : Type} (c : result A) (k : A -> result B) : result B :=
  match c with
  | Ok a => k a
  | Raise e => Raise e
  end.

Notation "x <- c ;; k" := (bind c (fun x => k))
  (at level 100, c at next level, right associativity).

(** [o] is a Python value that is a [str] or [None], used where a [str]
    is required. *)
Definition need_str (o : option string) : result string :=
  match o with
  | Some s => Ok s
  | None => Raise TypeError
  end.

(** [d[key]] *)
Definition getitem {V : Type} (d : gmap string V) (key : string) : result V :=
  match d !! key with
  | Some v => Ok v
  | None => Raise (KeyError key)
  end.

(** ** ElementTree *)

Module ET.

(** An element: its tag (a qualified name is [{uri}local]), its text
    ([None] when the element has none) and its child elements. *)
#[local] Unset Elimination Schemes.
Inductive Element : Type :=
| mkElement (tag : string) (text : option string) (children : list Element).
#[local] Set Elimination Schemes.

Definition tag (e : Element) : string :=
  match e with mkElement t _ _ => t end.
Definition text (e : Element) : option string :=
  match e with mkElement _ x _ => x end.
Definition children (e : Element) : list Element :=
  match e with mkElement _ _ cs => cs end.

(** [e.iter()]: [e] and everything below it, in document order. *)
Fixpoint iter (e : Element) : list Element :=
  match e with
  | mkElement _ _ cs => e :: flat_map iter cs
  end.

(** [root.findall(".//" + name)]: the elements below [root] (not [root]
    itself) whose tag is [name], in document order. *)
Definition findall (root : Element) (name : string) : list Element :=
  filter (fun e => tag e = name) (flat_map iter (children root)).

(** [root.find(".//" + name)]: the first of them, or [None]. *)
Definition find (root : Element) (name : string) : option Element :=
  head (findall root name).

End ET.

(** ** The outside world *)

Record World : Type := {
  (** [os.environ.get("USERPROFILE")] *)
  USERPROFILE : option string;
  (** [os.path.isfile(path)] *)
  isfile : string -> bool;
  (** [ET.parse(path).getroot()], [None] when it raises *)
  ET_parse : string -> option ET.Element;
  (** [open(path, "r").read()], [None] when it raises *)
  open_read : string -> option string
}.

Definition parse (w : World) (path : string) : result ET.Element :=
  match ET_parse w path with
  | Some root => Ok root
  | None => Raise ParseError
  end.

Definition read_file (w : World) (path : string) : result string :=
  match open_read w path with
  | Some content => Ok content
  | None => Raise IOError
  end.

(** ** MavenRepositories *)

Definition nodes_to_extract : list string :=
  ["id"; "username"; "password"; "privateKey"; "passphrase"].

Definition settings_namespace : string :=
  "{http://maven.apache.org/SETTINGS/1.0.0}".

(** The body of the [try] of [extract_master_password]. *)
Definition master_password_try (w : World) (location : string) : result (option string) :=
  config <- parse w location ;;
  match ET.find config "master" with
  | Some master_password_node => Ok (ET.text master_password_node)
  | None => Ok None
  end.

Definition extract_master_password (w : World) : result (option string) :=
  home <- need_str (USERPROFILE w) ;;
  let master_password_file_location := home +:+ "\.m2\settings-security.xml" in
  if isfile w master_password_file_location then
    match master_password_try w master_password_file_location with
    | Ok master_password => Ok master_password
    | Raise _ => Ok None
    end
  else Ok None.

(** The loop over the children of one server node, from the dictionary
    built so far. *)
Fixpoint children_loop (child_nodes : list ET.Element) (creds : gmap string string)
  : result (gmap string string) :=
  match child_nodes with
  | [] => Ok creds
  | child_node :: rest =>
      let tag_name := Py.replace (ET.tag child_node) settings_namespace "" in
      if bool_decide (tag_name ∈ nodes_to_extract) then
        match ET.text child_node with
        | Some t => children_loop rest (<[tag_name := Py.strip t]> creds)
        | None => Raise AttributeError
        end
      else children_loop rest creds
  end.

(** The loop over the server nodes. [repos_creds] is the list built so
    far; it outlives an exception, which is returned beside it. *)
Fixpoint servers_loop (server_nodes : list ET.Element)
    (repos_creds : list (gmap string string))
  : list (gmap string string) * option exn :=
  match server_nodes with
  | [] => (repos_creds, None)
  | server_node :: rest =>
      match children_loop (ET.children server_node) ∅ with
      | Ok creds =>
          servers_loop rest
            (if bool_decide (0 < size creds) then repos_creds ++ [creds]
             else repos_creds)
      | Raise e => (repos_creds, Some e)
      end
  end.

(** The [try] of [extract_repositories_credentials], from an empty
    [repos_creds]. *)
Definition repositories_try (w : World) (location : string)
  : list (gmap string string) * option exn :=
  match parse w location with
  | Ok settings =>
      servers_loop (ET.findall settings (settings_namespace +:+ "server")) []
  | Raise e => ([], Some e)
  end.

Definition extract_repositories_credentials (w : World)
  : result (list (gmap string string)) :=
  home <- need_str (USERPROFILE w) ;;
  let maven_settings_file_location := home +:+ "\.m2\settings.xml" in
  if isfile w maven_settings_file_location then
    Ok (fst (repositories_try w maven_settings_file_location))
  else Ok [].

Definition use_key_auth (w : World) (creds_dict : gmap string string) : result bool :=
  match creds_dict !! "privateKey" with
  | Some pk_file_location =>
      home <- need_str (USERPROFILE w) ;;
      Ok (isfile w (Py.replace pk_file_location "${user.home}" home))
  | None => Ok false
  end.

(** The password branch of the loop of [run] (key authentication not
    used), from the dictionary [values] built so far. *)
Definition password_branch (master_password : option string)
    (creds : gmap string string) (values : gmap string (option string))
  : result (gmap string (option string)) :=
  password <- getitem creds "password" ;;
  let pwd := Py.strip password in
  if Py.startswith pwd "{" && Py.endswith pwd "}" then
    let values := <["SymetricEncryptionKey" := master_password]> values in
    Ok (<["PasswordEncrypted" := Some pwd]> values)
  else
    Ok (<["Password" := Some pwd]> values).

(** The private key branch of the loop of [run]. *)
Definition private_key_branch (w : World)
    (creds : gmap string string) (values : gmap string (option string))
  : result (gmap string (option string)) :=
  pk_file_location <- getitem creds "privateKey" ;;
  home <- need_str (USERPROFILE w) ;;
  let pk_file_location := Py.replace pk_file_location "${user.home}" home in
  content <- read_file w pk_file_location ;;
  let values :=
    <["PrivateKey" := Some (Py.strip (Py.replace content Py.newline ""))]> values in
  Ok (match creds !! "passphrase" with
      | Some passphrase => <["Passphrase" := Some passphrase]> values
      | None => values
      end).

(** One turn of the loop of [run]: the dictionary [values] made for the
    repository [creds]. A value is a [str] or [None]. *)
Definition run_body (w : World) (master_password : option string)
    (creds : gmap string string) : result (gmap string (option string)) :=
  id <- getitem creds "id" ;;
  let values : gmap string (option string) := <["Id" := Some id]> ∅ in
  username <- getitem creds "username" ;;
  let values := <["Username" := Some username]> values in
  key_auth <- use_key_auth w creds ;;
  if negb key_auth then password_branch master_password creds values
  else private_key_branch w creds values.

(** The loop of [run]: an exception of one turn leaves the loop. *)
Fixpoint run_loop (w : World) (master_password : option string)
    (repos_creds : list (gmap string string))
    (pwd_found : list (gmap string (option string)))
  : result (list (gmap string (option string))) :=
  match repos_creds with
  | [] => Ok pwd_found
  | creds :: rest =>
      values <- run_body w master_password creds ;;
      run_loop w master_password rest (pwd_found ++ [values])
  end.

(** [run], up to the list handed to [print_output]. *)
Definition run (w : World) : result (list (gmap string (option string))) :=
  master_password <- extract_master_password w ;;
  repos_creds <- extract_repositories_credentials w ;;
  run_loop w master_password repos_creds [].

(** ** Shapes of a normalised record *)

(** The authentication fields of [values]: its keys other than [Id] and
    [Username]. *)
Definition payload (values : gmap string (option string)) : gset string :=
  dom values ∖ {["Id"; "Username"]}.

Definition shape_password (values : gmap string (option string)) : Prop :=
  payload values = {["Password"]}.

Definition shape_encrypted (values : gmap string (option string)) : Prop :=
  payload values = {["SymetricEncryptionKey"; "PasswordEncrypted"]}.

Definition shape_private_key (values : gmap string (option string)) : Prop :=
  payload values = {["PrivateKey"]} \/
  payload values = {["PrivateKey"; "Passphrase"]}.

Definition exactly_one (P Q R : Prop) : Prop :=
  (P /\ ~ Q /\ ~ R) \/ (~ P /\ Q /\ ~ R) \/ (~ P /\ ~ Q /\ R).

(** Key authentication does not apply to [creds]: it has no [privateKey],
    or its [privateKey], with the home directory put for the placeholder,
    names no file. *)
Definition key_auth_not_applicable (w : World) (creds : gmap string string) : Prop :=
  creds !! "privateKey" = None \/
  exists pk home,
    creds !! "privateKey" = Some pk /\ USERPROFILE w = Some home /\
    isfile w (Py.replace pk "${user.home}" home) = false.

(** ** Vocabulary of the scan *)

(** The child [child_node] of a server node is one of the nodes to
    extract, once the namespace is taken out of its tag. *)
Definition recognised (child_node : ET.Element) : bool :=
  bool_decide (Py.replace (ET.tag child_node) settings_namespace "" ∈ nodes_to_extract).

Definition has_recognised_field (server_node : ET.Element) : bool :=
  existsb recognised (ET.children server_node).

(** The record a server node adds to [repos_creds], if it adds one. *)
Definition server_record (server_node : ET.Element) : option (gmap string string) :=
  match children_loop (ET.children server_node) ∅ with
  | Ok creds => if bool_decide (0 < size creds) then Some creds else None
  | Raise _ => None
  end.

(** Every key of [creds] is a node to extract and every value is
    stripped. *)
Definition allow_listed (creds : gmap string string) : Prop :=
  forall key value, creds !! key = Some value ->
    key ∈ nodes_to_extract /\ Py.strip value = value.

(** ** Sample worlds and records *)

Module Sample.

Definition home : string := "C:\Users\bob".
Definition key_path : string := "C:\Users\bob\.ssh\id_rsa".
Definition key_text : string :=
  "AAA" +:+ Py.newline +:+ "BBB" +:+ Py.newline.

(** No [.m2] directory; one private key file. *)
Definition w_key : World := {|
  USERPROFILE := Some home;
  isfile := fun path => String.eqb path key_path;
  ET_parse := fun _ => None;
  open_read := fun path => if String.eqb path key_path then Some key_text else None
|}.

Definition repo1 : gmap string string :=
  <["id" := "repo1"]> (<["username" := "bob"]> (<["password" := "plain"]> ∅)).

Definition repo2 : gmap string string :=
  <["id" := "repo2"]> (<["username" := "bob"]> (<["password" := "{ENC}"]> ∅)).

Definition repo3 : gmap string string :=
  <["id" := "repo3"]> (<["username" := "bob"]>
    (<["privateKey" := "${user.home}\.ssh\id_rsa"]>
      (<["passphrase" := " s3cret "]> ∅))).

(** A [privateKey] that names no file, a password and a passphrase. *)
Definition repo4 : gmap string string :=
  <["id" := "repo4"]> (<["username" := "bob"]>
    (<["privateKey" := "${user.home}\.ssh\missing"]>
      (<["password" := "pw"]> (<["passphrase" := "s3cret"]> ∅)))).

(** A [privateKey] that names no file and nothing to fall back on. *)
Definition repo5 : gmap string string :=
  <["id" := "repo5"]> (<["username" := "bob"]>
    (<["privateKey" := "${user.home}\.ssh\missing"]> ∅)).

Definition repo1_values : gmap string (option string) :=
  <["Id" := Some "repo1"]> (<["Username" := Some "bob"]>
    (<["Password" := Some "plain"]> ∅)).

Definition repo2_values : gmap string (option string) :=
  <["Id" := Some "repo2"]> (<["Username" := Some "bob"]>
    (<["SymetricEncryptionKey" := Some "m"]>
      (<["PasswordEncrypted" := Some "{ENC}"]> ∅))).

Definition repo3_values : gmap string (option string) :=
  <["Id" := Some "repo3"]> (<["Username" := Some "bob"]>
    (<["PrivateKey" := Some "AAABBB"]>
      (<["Passphrase" := Some " s3cret "]> ∅))).

(** A record without an [id]. *)
Definition no_id : gmap string string :=
  <["username" := "bob"]> (<["password" := "plain"]> ∅).

Definition security_path : string := "C:\Users\bob\.m2\settings-security.xml".
Definition settings_path : string := "C:\Users\bob\.m2\settings.xml".

(** The world of a [.m2] directory. For each of the two files: [None]
    when it is not there, [Some None] when it is there and does not
    parse, [Some (Some root)] when it parses to [root]. *)
Definition m2 (security settings : option (option ET.Element)) : World := {|
  USERPROFILE := Some home;
  isfile := fun path =>
    String.eqb path key_path
    || (String.eqb path security_path && bool_decide (is_Some security))
    || (String.eqb path settings_path && bool_decide (is_Some settings));
  ET_parse := fun path =>
    if String.eqb path security_path then mjoin security
    else if String.eqb path settings_path then mjoin settings
    else None;
  open_read := fun path => if String.eqb path key_path then Some key_text else None
|}.

(** An element of the settings namespace with a text and no child. *)
Definition field (name text : string) : ET.Element :=
  ET.mkElement (settings_namespace +:+ name) (Some text) [].

(** An empty element of the settings namespace, [<name/>]. *)
Definition empty_field (name : string) : ET.Element :=
  ET.mkElement (settings_namespace +:+ name) None [].

Definition server (child_nodes : list ET.Element) : ET.Element :=
  ET.mkElement (settings_namespace +:+ "server") None child_nodes.

Definition settings (server_nodes : list ET.Element) : ET.Element :=
  ET.mkElement (settings_namespace +:+ "settings") None
    [ET.mkElement (settings_namespace +:+ "servers") None server_nodes].

Definition server1 : ET.Element :=
  server [field "id" " repo1 "; field "username" "bob";
          field "password" "plain"; field "configuration" "x"].

Definition server_comment : ET.Element :=
  server [field "comment" "only a comment"].

(** A server with an empty [<passphrase/>]. *)
Definition server_empty_passphrase : ET.Element :=
  server [field "id" "repo2"; field "username" "bob";
          field "password" "{ENC}"; empty_field "passphrase"].

Definition server3 : ET.Element :=
  server [field "id" "repo3"; field "username" "bob";
          field "privateKey" "${user.home}\.ssh\id_rsa";
          field "passphrase" " s3cret "].

Definition server_no_id : ET.Element :=
  server [field "username" "bob"; field "password" "plain"].

(** Three servers, the second with nothing to extract. *)
Definition settings3 : ET.Element :=
  settings [server1; server_comment; server3].

Definition w_settings : World := m2 None (Some (Some settings3)).

(** The second of three servers has an empty [<passphrase/>]. *)
Definition w_partial : World :=
  m2 None (Some (Some (settings [server1; server_empty_passphrase; server3]))).

(** The first of two servers has no [id]. *)
Definition w_batch : World :=
  m2 None (Some (Some (settings [server_no_id; server1]))).

Definition security (child_nodes : list ET.Element) : ET.Element :=
  ET.mkElement "settingsSecurity" None child_nodes.

Definition master (text : option string) : ET.Element :=
  ET.mkElement "master" text [].

(** A security file, the master password two levels down and with
    blanks around. *)
Definition security_nested : ET.Element :=
  security [ET.mkElement "relocation" None [master (Some " {abc} ")]].

Definition w_master : World := m2 (Some (Some security_nested)) None.

(** The root of the security file is the master element. *)
Definition w_root_master : World :=
  m2 (Some (Some (master (Some "X")))) None.

(** An empty master element before one with a text. *)
Definition security_second : ET.Element :=
  security [master None; master (Some "X")].

Definition w_second_master : World := m2 (Some (Some security_second)) None.

End Sample.

(** ** Vocabulary of the further properties *)

(** [old] occurs in [s]. *)
Fixpoint contains (s old : string) : bool :=
  Py.startswith s old ||
  match s with
  | EmptyString => false
  | String _ s' => contains s' old
  end.

(** [s] does not end with a whitespace character. *)
Fixpoint no_trailing_space (s : string) : Prop :=
  match s with
  | EmptyString => True
  | String c EmptyString => Py.is_space c = false
  | String _ s' => no_trailing_space s'
  end.

(** The bare name of a child node: its tag without the namespace. *)
Definition bare_tag (child_node : ET.Element) : string :=
  Py.replace (ET.tag child_node) settings_namespace "".

(** The value the children of a server node leave under [key]: the
    stripped text of the last recognised child of that name. *)
Fixpoint last_value (key : string) (child_nodes : list ET.Element) : option string :=
  match child_nodes with
  | [] => None
  | child_node :: rest =>
      match last_value key rest with
      | Some value => Some value
      | None =>
          if recognised child_node && bool_decide (bare_tag child_node = key)
          then Py.strip <$> ET.text child_node
          else None
      end
  end.

(** A recognised child node without text, on which [.text.strip()]
    raises. *)
Definition empty_recognised (child_node : ET.Element) : bool :=
  recognised child_node && bool_decide (ET.text child_node = None).

Definition raises (server_node : ET.Element) : bool :=
  existsb empty_recognised (ET.children server_node).

(** The server nodes before the first one that raises. *)
Fixpoint good_prefix (server_nodes : list ET.Element) : list ET.Element :=
  match server_nodes with
  | [] => []
  | server_node :: rest =>
      if raises server_node then [] else server_node :: good_prefix rest
  end.

Module Cases.

(** A server node written without the namespace. *)
Definition settings_unqualified : ET.Element :=
  Sample.settings
    [ET.mkElement "server" None [Sample.field "id" "repo1"; Sample.field "password" "pw"]].

Definition w_unqualified : World :=
  Sample.m2 None (Some (Some settings_unqualified)).

(** A server node with two [password] children. *)
Definition server_twice : ET.Element :=
  Sample.server [Sample.field "password" "first"; Sample.field "id" "r";
                 Sample.field "password" " second "].

Definition server_encrypted : ET.Element :=
  Sample.server [Sample.field "id" "repo2"; Sample.field "username" "bob";
                 Sample.field "password" "{ENC}"].

(** A master password and two servers, one with an encrypted password. *)
Definition w_encrypted : World :=
  Sample.m2 (Some (Some Sample.security_nested))
            (Some (Some (Sample.settings [Sample.server1; server_encrypted]))).

Definition repo2_values : gmap string (option string) :=
  <["Id" := Some "repo2"]> (<["Username" := Some "bob"]>
    (<["SymetricEncryptionKey" := Some " {abc} "]>
      (<["PasswordEncrypted" := Some "{ENC}"]> ∅))).

(** A private key written without the placeholder. *)
Definition repo_absolute : gmap string string :=
  <["id" := "repo6"]> (<["username" := "bob"]>
    (<["privateKey" := "C:\Users\bob\.ssh\id_rsa"]> ∅)).

End Cases.

(** * Properties *)

(** ** Python string methods *)

Section Strings.

Lemma lstrip_no_leading_space (s : string) : Py.no_leading_space (Py.lstrip s).
Proof.
  induction s as [|c s IH]; simpl; [exact I|].
  destruct (Py.is_space c) eqn:Hc; [exact IH|]. simpl. exact Hc.
Qed.

Lemma lstrip_fixed (s : string) : Py.no_leading_space s -> Py.lstrip s = s.
Proof.
  destruct s as [|c s]; simpl; [reflexivity|]. intros ->. reflexivity.
Qed.

Lemma rstrip_no_leading_space (s : string) :
  Py.no_leading_space s -> Py.no_leading_space (Py.rstrip s).
Proof.
  destruct s as [|c s]; simpl; [auto|]. intros Hc.
  destruct (Py.rstrip s); [rewrite Hc|]; simpl; exact Hc.
Qed.

Lemma rstrip_rstrip (s : string) : Py.rstrip (Py.rstrip s) = Py.rstrip s.
Proof.
  induction s as [|c s IH]; simpl; [reflexivity|].
  destruct (Py.rstrip s) as [|d r] eqn:Hr.
  - destruct (Py.is_space c) eqn:Hc; simpl; [reflexivity|].
    rewrite Hc. reflexivity.
  - change (Py.rstrip (String c (String d r))) with
      (match Py.rstrip (String d r) with
       | EmptyString => if Py.is_space c then EmptyString else String c EmptyString
       | r' => String c r'
       end).
    rewrite IH. reflexivity.
Qed.

(** A stripped string is left alone by [strip]. *)
Lemma strip_strip (s : string) : Py.strip (Py.strip s) = Py.strip s.
Proof.
  unfold Py.strip.
  rewrite (lstrip_fixed (Py.rstrip (Py.lstrip s))).
  - apply rstrip_rstrip.
  - apply rstrip_no_leading_space, lstrip_no_leading_space.
Qed.

End Strings.

Example strip_blanks : Py.strip "  a b  " = "a b".
Proof. reflexivity. Qed.

Example replace_placeholder :
  Py.replace "${user.home}\.ssh\id_rsa" "${user.home}" "C:\Users\bob" =
    "C:\Users\bob\.ssh\id_rsa".
Proof. reflexivity. Qed.

Example replace_no_overlap : Py.replace "aaa" "aa" "b" = "ba".
Proof. reflexivity. Qed.

Example replace_empty_old : Py.replace "abc" "" "-" = "-a-b-c-".
Proof. reflexivity. Qed.

Example braces_alone :
  Py.startswith "{}" "{" = true /\ Py.endswith "{}" "}" = true /\
  Py.endswith "{" "}" = false.
Proof. repeat split. Qed.

Lemma replace_newline (s : string) :
  Py.replace s Py.newline "" = Py.without "010"%char s.
Proof.
  unfold Py.replace, Py.newline.
  induction s as [|a s IH]; [reflexivity|].
  cbn [Py.replace_from Py.startswith Py.without String.length Nat.sub].
  rewrite andb_true_r, IH. destruct (Ascii.eqb "010" a); reflexivity.
Qed.

(** ** The classification of one record *)

Section Classifier.

Variable w : World.
Variable master_password : option string.

Lemma use_key_auth_not_applicable (creds : gmap string string) :
  key_auth_not_applicable w creds -> use_key_auth w creds = Ok false.
Proof.
  unfold use_key_auth.
  intros [-> | (pk & home & -> & -> & Hfile)]; [reflexivity|].
  cbn [need_str bind]. rewrite Hfile. reflexivity.
Qed.

(** What a completed turn returns, branch by branch. *)
Lemma run_body_inv (creds : gmap string string)
    (values : gmap string (option string)) :
  run_body w master_password creds = Ok values ->
  exists id username,
    creds !! "id" = Some id /\ creds !! "username" = Some username /\
    let values0 : gmap string (option string) :=
      <["Username" := Some username]> (<["Id" := Some id]> ∅) in
    (use_key_auth w creds = Ok false /\
     password_branch master_password creds values0 = Ok values) \/
    (use_key_auth w creds = Ok true /\
     private_key_branch w creds values0 = Ok values).
Proof.
  unfold run_body, getitem.
  destruct (creds !! "id") as [id|]; [|discriminate].
  destruct (creds !! "username") as [username|]; [|discriminate].
  cbn [bind]. destruct (use_key_auth w creds) as [[|]|]; cbn [bind negb]; [| |discriminate];
    intros H; exists id, username; auto.
Qed.

Lemma password_branch_inv (creds : gmap string string)
    (values0 values : gmap string (option string)) :
  password_branch master_password creds values0 = Ok values ->
  exists password : string,
    creds !! "password" = Some password /\
    let pwd := Py.strip password in
    (Py.startswith pwd "{" && Py.endswith pwd "}" = true /\
     values = <["PasswordEncrypted" := Some pwd]>
                (<["SymetricEncryptionKey" := master_password]> values0)) \/
    (Py.startswith pwd "{" && Py.endswith pwd "}" = false /\
     values = <["Password" := Some pwd]> values0).
Proof.
  unfold password_branch, getitem.
  destruct (creds !! "password") as [password|]; [|discriminate].
  cbn [bind]. intros H. exists password. split; [reflexivity|]. cbv zeta.
  destruct (_ && _); injection H as <-; [left|right]; split; reflexivity.
Qed.

Lemma private_key_branch_inv (creds : gmap string string)
    (values0 values : gmap string (option string)) :
  private_key_branch w creds values0 = Ok values ->
  exists pk home content,
    creds !! "privateKey" = Some pk /\ USERPROFILE w = Some home /\
    open_read w (Py.replace pk "${user.home}" home) = Some content /\
    let values1 :=
      <["PrivateKey" := Some (Py.strip (Py.replace content Py.newline ""))]> values0 in
    values = match creds !! "passphrase" with
             | Some passphrase => <["Passphrase" := Some passphrase]> values1
             | None => values1
             end.
Proof.
  unfold private_key_branch, getitem, need_str, read_file.
  destruct (creds !! "privateKey") as [pk|]; [|discriminate].
  destruct (USERPROFILE w) as [home|]; [|discriminate].
  cbn [bind]. destruct (open_read w _) as [content|] eqn:Hread; [|discriminate].
  cbn [bind]. intros [= <-]. exists pk, home, content. auto.
Qed.

End Classifier.

Section ClassifierClaims.

Variable w : World.
Variable master_password : option string.

(** The keys of a completed record: one of four sets. *)
Lemma run_body_dom (creds : gmap string string)
    (values : gmap string (option string)) :
  run_body w master_password creds = Ok values ->
  dom values = {["Id"; "Username"; "Password"]} \/
  dom values = {["Id"; "Username"; "SymetricEncryptionKey"; "PasswordEncrypted"]} \/
  dom values = {["Id"; "Username"; "PrivateKey"]} \/
  dom values = {["Id"; "Username"; "PrivateKey"; "Passphrase"]}.
Proof.
  intros H. apply run_body_inv in H as (id & username & _ & _ & [[_ H] | [_ H]]).
  - apply password_branch_inv in H as (password & _ & [[_ ->] | [_ ->]]).
    + right; left. rewrite !dom_insert_L, dom_empty_L. set_solver.
    + left. rewrite !dom_insert_L, dom_empty_L. set_solver.
  - apply private_key_branch_inv in H as (pk & home & content & _ & _ & _ & ->).
    destruct (creds !! "passphrase").
    + right; right; right. rewrite !dom_insert_L, dom_empty_L. set_solver.
    + right; right; left. rewrite !dom_insert_L, dom_empty_L. set_solver.
Qed.

(** C1. Every record the loop of [run] completes has an [Id] and a
    [Username] and exactly one authentication shape: a plain
    [Password], or the pair of the encryption key and
    [PasswordEncrypted], or a [PrivateKey] with or without a
    [Passphrase]; never two shapes and never none. *)
Theorem run_body_one_shape (creds : gmap string string)
    (values : gmap string (option string)) :
  run_body w master_password creds = Ok values ->
  is_Some (values !! "Id") /\ is_Some (values !! "Username") /\
  exactly_one (shape_password values) (shape_encrypted values)
              (shape_private_key values).
Proof.
  intros H. apply run_body_dom in H.
  rewrite <- !elem_of_dom.
  unfold exactly_one, shape_password, shape_encrypted, shape_private_key, payload.
  destruct H as [-> | [-> | [-> | ->]]];
    apply (bool_decide_unpack _); vm_compute; exact I.
Qed.

(** The record is completed whenever it has an [id] and a [username]
    and either a private key file that can be read or, key
    authentication not applying, a [password]. *)
Lemma run_body_completes (creds : gmap string string) :
  is_Some (creds !! "id") -> is_Some (creds !! "username") ->
  (key_auth_not_applicable w creds /\ is_Some (creds !! "password")) \/
  (exists pk home,
      creds !! "privateKey" = Some pk /\ USERPROFILE w = Some home /\
      isfile w (Py.replace pk "${user.home}" home) = true /\
      is_Some (open_read w (Py.replace pk "${user.home}" home))) ->
  exists values, run_body w master_password creds = Ok values.
Proof.
  intros [id Hid] [username Hu] Hauth. unfold run_body, getitem.
  rewrite Hid, Hu. cbn [bind].
  destruct Hauth as [[Hna [password Hp]] | (pk & home & Hpk & Hhome & Hfile & [content Hread])].
  - rewrite (use_key_auth_not_applicable _ _ Hna). cbn [bind negb].
    unfold password_branch, getitem. rewrite Hp. cbn [bind].
    destruct (_ && _); eauto.
  - unfold use_key_auth. rewrite Hpk, Hhome. cbn [need_str bind].
    rewrite Hfile. cbn [negb].
    unfold private_key_branch, getitem, read_file.
    rewrite Hpk, Hhome. cbn [need_str bind]. rewrite Hread. cbn [bind]. eauto.
Qed.

(** The encrypted case in general: key authentication not applying and
    the stripped password standing between braces, the master password
    (a string or [None]) goes under the key the code spells
    [SymetricEncryptionKey] and the stripped password, braces kept,
    under [PasswordEncrypted]. *)
Lemma run_body_encrypted (creds : gmap string string) (id username password : string) :
  creds !! "id" = Some id -> creds !! "username" = Some username ->
  key_auth_not_applicable w creds ->
  creds !! "password" = Some password ->
  Py.startswith (Py.strip password) "{" = true ->
  Py.endswith (Py.strip password) "}" = true ->
  run_body w master_password creds =
    Ok (<["PasswordEncrypted" := Some (Py.strip password)]>
          (<["SymetricEncryptionKey" := master_password]>
             (<["Username" := Some username]> (<["Id" := Some id]> ∅)))).
Proof.
  intros Hid Hu Hna Hp Hs He. unfold run_body, getitem.
  rewrite Hid, Hu. cbn [bind].
  rewrite (use_key_auth_not_applicable _ _ Hna). cbn [bind negb].
  unfold password_branch, getitem. rewrite Hp. cbn [bind].
  rewrite Hs, He. reflexivity.
Qed.

(** C2. On the record [{id: repo2, username: bob, password: {ENC}}]
    with the master password [m] the loop of [run] stores the master
    password under [SymetricEncryptionKey]: the record it makes has no
    [SymmetricEncryptionKey] field. *)
Theorem run_body_repo2_key_name :
  run_body w (Some "m") Sample.repo2 = Ok Sample.repo2_values /\
  Sample.repo2_values !! "PasswordEncrypted" = Some (Some "{ENC}") /\
  Sample.repo2_values !! "SymetricEncryptionKey" = Some (Some "m") /\
  Sample.repo2_values !! "SymmetricEncryptionKey" = None.
Proof. split_and!; vm_compute; reflexivity. Qed.

(** C8. The record [{id: repo1, username: bob, password: plain}] gives
    exactly [{Id: repo1, Username: bob, Password: plain}], whatever the
    world and the master password: no [PasswordEncrypted], no
    encryption key, no [PrivateKey], no [Passphrase]. *)
Theorem run_body_repo1 :
  run_body w master_password Sample.repo1 = Ok Sample.repo1_values /\
  Sample.repo1_values !! "Id" = Some (Some "repo1") /\
  Sample.repo1_values !! "Username" = Some (Some "bob") /\
  Sample.repo1_values !! "Password" = Some (Some "plain") /\
  dom Sample.repo1_values = {["Id"; "Username"; "Password"]}.
Proof.
  split_and!; [vm_compute; reflexivity .. |].
  apply (bool_decide_unpack _). vm_compute. exact I.
Qed.

(** C5. A record whose [privateKey], the home directory put for
    [${user.home}], names a file that exists. Every record the turn
    completes then has, under [PrivateKey], the content read from that
    file without its line feeds and then stripped; under [Passphrase],
    the [passphrase] of the raw record as it is when there is one, and
    nothing otherwise; and no [Password]. The turn is completed as soon
    as [id] and [username] are there and the file can be read. *)
Theorem run_body_private_key (creds : gmap string string) (pk home : string) :
  creds !! "privateKey" = Some pk -> USERPROFILE w = Some home ->
  isfile w (Py.replace pk "${user.home}" home) = true ->
  (forall values,
      run_body w master_password creds = Ok values ->
      exists content,
        open_read w (Py.replace pk "${user.home}" home) = Some content /\
        values !! "PrivateKey" =
          Some (Some (Py.strip (Py.replace content Py.newline ""))) /\
        Py.replace content Py.newline "" = Py.without "010"%char content /\
        values !! "Passphrase" = Some <$> creds !! "passphrase" /\
        values !! "Password" = None) /\
  (is_Some (creds !! "id") -> is_Some (creds !! "username") ->
   is_Some (open_read w (Py.replace pk "${user.home}" home)) ->
   exists values, run_body w master_password creds = Ok values).
Proof.
  intros Hpk Hhome Hfile. split.
  - intros values H.
    apply run_body_inv in H as (id & username & _ & _ & [[Hk _] | [_ H]]).
    { unfold use_key_auth in Hk. rewrite Hpk, Hhome in Hk.
      cbn [need_str bind] in Hk. rewrite Hfile in Hk. discriminate. }
    apply private_key_branch_inv in H
      as (pk' & home' & content & Hpk' & Hhome' & Hread & ->).
    rewrite Hpk in Hpk'. rewrite Hhome in Hhome'.
    injection Hpk' as <-. injection Hhome' as <-.
    exists content. split; [exact Hread|]. cbv zeta.
    destruct (creds !! "passphrase") as [passphrase|];
      cbn [fmap option_fmap option_map];
      split_and!; first [apply replace_newline | by simplify_map_eq].
  - intros Hid Hu Hread. apply run_body_completes; [exact Hid|exact Hu|].
    right. exists pk, home. auto.
Qed.

(** C9. A record whose [privateKey], the home directory put for the
    placeholder, names no file: [use_key_auth] answers [False], the
    record goes through the password branch, and without a [password]
    the turn raises (a [KeyError] on [password] when [id] and
    [username] are there). *)
Theorem run_body_missing_key_file (creds : gmap string string) (pk home : string) :
  creds !! "privateKey" = Some pk -> USERPROFILE w = Some home ->
  isfile w (Py.replace pk "${user.home}" home) = false ->
  use_key_auth w creds = Ok false /\
  run_body w master_password creds =
    (id <- getitem creds "id" ;;
     username <- getitem creds "username" ;;
     password_branch master_password creds
       (<["Username" := Some username]> (<["Id" := Some id]> ∅))) /\
  (creds !! "password" = None ->
   (exists e, run_body w master_password creds = Raise e) /\
   (is_Some (creds !! "id") -> is_Some (creds !! "username") ->
    run_body w master_password creds = Raise (KeyError "password"))).
Proof.
  intros Hpk Hhome Hfile.
  assert (Hna : use_key_auth w creds = Ok false).
  { apply use_key_auth_not_applicable. right. eauto. }
  assert (Hrun : run_body w master_password creds =
    (id <- getitem creds "id" ;;
     username <- getitem creds "username" ;;
     password_branch master_password creds
       (<["Username" := Some username]> (<["Id" := Some id]> ∅)))).
  { unfold run_body. rewrite Hna. reflexivity. }
  split; [exact Hna|]. split; [exact Hrun|].
  intros Hp. rewrite Hrun. unfold getitem, password_branch, getitem.
  rewrite Hp. split.
  - destruct (creds !! "id"); [|cbn [bind]; eauto].
    destruct (creds !! "username"); cbn [bind]; eauto.
  - intros [id ->] [username ->]. reflexivity.
Qed.

(** C10. Key authentication not applying (no [privateKey], or one that
    names no file), a completed record has no [Passphrase], whether or
    not the raw record has a [passphrase]; and the record is completed
    as soon as [id], [username] and [password] are there. *)
Theorem run_body_no_passphrase (creds : gmap string string) :
  key_auth_not_applicable w creds ->
  (forall values, run_body w master_password creds = Ok values ->
                  values !! "Passphrase" = None) /\
  (is_Some (creds !! "id") -> is_Some (creds !! "username") ->
   is_Some (creds !! "password") ->
   exists values, run_body w master_password creds = Ok values).
Proof.
  intros Hna. split.
  - intros values H.
    apply run_body_inv in H as (id & username & _ & _ & [[_ H] | [Hk _]]).
    + apply password_branch_inv in H as (password & _ & [[_ ->] | [_ ->]]);
        by simplify_map_eq.
    + rewrite (use_key_auth_not_applicable _ _ Hna) in Hk. discriminate.
  - intros Hid Hu Hp. apply run_body_completes; auto.
Qed.

End ClassifierClaims.

(** ** The scan of [settings.xml] *)

Section Scanner.

Lemma children_loop_allow_listed (child_nodes : list ET.Element)
    (creds creds' : gmap string string) :
  allow_listed creds ->
  children_loop child_nodes creds = Ok creds' ->
  allow_listed creds'.
Proof.
  revert creds. induction child_nodes as [|child_node rest IH]; intros creds Hc.
  - intros [= <-]. exact Hc.
  - cbn [children_loop]. cbv zeta. case_bool_decide as Htag; [|by apply IH].
    destruct (ET.text child_node) as [t|]; [|discriminate].
    apply IH. intros key value.
    destruct (decide (key = Py.replace (ET.tag child_node) settings_namespace "")) as [->|Hne].
    + rewrite lookup_insert_eq. intros [= <-]. split; [exact Htag|apply strip_strip].
    + rewrite lookup_insert_ne by congruence. apply Hc.
Qed.

Lemma children_loop_unrecognised (child_nodes : list ET.Element)
    (creds : gmap string string) :
  existsb recognised child_nodes = false ->
  children_loop child_nodes creds = Ok creds.
Proof.
  induction child_nodes as [|child_node rest IH]; [reflexivity|].
  cbn [existsb children_loop]. cbv zeta. intros [Hr Hrest]%orb_false_elim.
  unfold recognised in Hr. rewrite Hr. by apply IH.
Qed.

(** A server node with nothing to extract adds no record. *)
Lemma server_record_unrecognised (server_node : ET.Element) :
  has_recognised_field server_node = false -> server_record server_node = None.
Proof.
  unfold has_recognised_field, server_record. intros H.
  rewrite (children_loop_unrecognised _ _ H). reflexivity.
Qed.

Lemma server_record_allow_listed (server_node : ET.Element)
    (creds : gmap string string) :
  server_record server_node = Some creds -> allow_listed creds.
Proof.
  unfold server_record.
  destruct (children_loop (ET.children server_node) ∅) as [creds'|] eqn:H; [|discriminate].
  case_bool_decide; [|discriminate]. intros [= <-].
  eapply children_loop_allow_listed; [|exact H].
  intros key value. rewrite lookup_empty. discriminate.
Qed.

(** The list built so far only grows at its end. *)
Lemma servers_loop_app (server_nodes : list ET.Element)
    (repos_creds : list (gmap string string)) :
  servers_loop server_nodes repos_creds =
    ((repos_creds ++ (servers_loop server_nodes []).1)%list,
     (servers_loop server_nodes []).2).
Proof.
  revert repos_creds.
  induction server_nodes as [|server_node rest IH]; intros repos_creds.
  - cbn. by rewrite app_nil_r.
  - cbn [servers_loop].
    destruct (children_loop (ET.children server_node) ∅) as [creds|e].
    + rewrite (IH (if bool_decide (0 < size creds) then _ else _)).
      rewrite (IH (if bool_decide (0 < size creds) then ([] ++ [creds])%list else [])).
      cbn [fst snd]. case_bool_decide; by rewrite <- ?app_assoc.
    + cbn. by rewrite app_nil_r.
Qed.

(** The records are those of the server nodes before the first one that
    raises, in their order. *)
Lemma servers_loop_prefix (server_nodes : list ET.Element) :
  exists k, (servers_loop server_nodes []).1 = omap server_record (take k server_nodes).
Proof.
  induction server_nodes as [|server_node rest [k IH]]; [by exists 0|].
  cbn [servers_loop].
  destruct (children_loop (ET.children server_node) ∅) as [creds|e] eqn:Hc.
  - exists (S k). rewrite servers_loop_app. cbn [fst take omap list_omap].
    fold (omap server_record (take k rest)).
    unfold server_record at 1. rewrite Hc, IH.
    case_bool_decide; reflexivity.
  - by exists 0.
Qed.

(** When no server node raises, every server node is looked at. *)
Lemma servers_loop_complete (server_nodes : list ET.Element) :
  (servers_loop server_nodes []).2 = None ->
  (servers_loop server_nodes []).1 = omap server_record server_nodes.
Proof.
  induction server_nodes as [|server_node rest IH]; [reflexivity|].
  cbn [servers_loop omap list_omap]. fold (omap server_record rest).
  unfold server_record at 1.
  destruct (children_loop (ET.children server_node) ∅) as [creds|e]; [|discriminate].
  rewrite servers_loop_app. cbn [fst snd]. intros H. rewrite (IH H).
  case_bool_decide; reflexivity.
Qed.

(** Server nodes with nothing to extract may as well not be there. *)
Lemma servers_loop_filter (server_nodes : list ET.Element)
    (repos_creds : list (gmap string string)) :
  servers_loop (filter (fun s => has_recognised_field s = true) server_nodes) repos_creds =
  servers_loop server_nodes repos_creds.
Proof.
  revert repos_creds.
  induction server_nodes as [|server_node rest IH]; intros repos_creds; [reflexivity|].
  destruct (has_recognised_field server_node) eqn:Hr.
  - rewrite filter_cons_True by exact Hr. cbn [servers_loop].
    destruct (children_loop _ _); [apply IH|reflexivity].
  - rewrite filter_cons_False by congruence. cbn [servers_loop].
    unfold has_recognised_field in Hr.
    rewrite (children_loop_unrecognised _ _ Hr), IH. reflexivity.
Qed.

Lemma length_omap_le {A B : Type} (f : A -> option B) (l : list A) :
  length (omap f l) <= length l.
Proof.
  induction l as [|x l IH]; cbn; [lia|]. destruct (f x); cbn; lia.
Qed.

End Scanner.

Section ScannerClaims.

Variable w : World.
Variable home : string.
Hypothesis Hhome : USERPROFILE w = Some home.

(** With the home directory known the scan never raises. *)
Lemma extract_repositories_credentials_total :
  exists repos_creds, extract_repositories_credentials w = Ok repos_creds.
Proof.
  unfold extract_repositories_credentials. rewrite Hhome. cbn [need_str bind].
  destruct (isfile w _); eauto.
Qed.

(** A settings file that does not parse gives the empty list. *)
Lemma extract_repositories_credentials_parse_failure :
  ET_parse w (home +:+ "\.m2\settings.xml") = None ->
  extract_repositories_credentials w = Ok [].
Proof.
  intros Hparse. unfold extract_repositories_credentials.
  rewrite Hhome. cbn [need_str bind].
  destruct (isfile w _); [|reflexivity].
  unfold repositories_try, parse. rewrite Hparse. reflexivity.
Qed.

(** C7. The settings file there and parsed, with [N] server nodes: the
    scan returns at most [N] records; they are the records of the
    server nodes before some position, in the order of the document;
    their keys are among the five nodes to extract and their values are
    stripped; a server node with none of the five adds no record, and
    the result is the one got with these server nodes taken out. *)
Theorem extract_repositories_credentials_spec (settings : ET.Element) :
  isfile w (home +:+ "\.m2\settings.xml") = true ->
  ET_parse w (home +:+ "\.m2\settings.xml") = Some settings ->
  let server_nodes := ET.findall settings (settings_namespace +:+ "server") in
  exists repos_creds,
    extract_repositories_credentials w = Ok repos_creds /\
    length repos_creds <= length server_nodes /\
    (exists k, repos_creds = omap server_record (take k server_nodes)) /\
    Forall allow_listed repos_creds /\
    (forall server_node, server_node ∈ server_nodes ->
       has_recognised_field server_node = false ->
       server_record server_node = None) /\
    repos_creds =
      (servers_loop
         (filter (fun s => has_recognised_field s = true) server_nodes) []).1.
Proof.
  intros Hfile Hparse server_nodes.
  exists (servers_loop server_nodes []).1.
  destruct (servers_loop_prefix server_nodes) as [k Hk].
  split_and!.
  - unfold extract_repositories_credentials. rewrite Hhome. cbn [need_str bind].
    rewrite Hfile. unfold repositories_try, parse. rewrite Hparse. reflexivity.
  - rewrite Hk. etrans; [apply length_omap_le|]. rewrite length_take. lia.
  - eauto.
  - rewrite Hk. apply Forall_forall. intros creds Hin.
    apply list_elem_of_omap in Hin as (server_node & _ & Hrec).
    by eapply server_record_allow_listed.
  - intros server_node _. apply server_record_unrecognised.
  - by rewrite servers_loop_filter.
Qed.

End ScannerClaims.

(** C3. On a settings file whose second server node has an empty
    [<passphrase/>] the second turn raises an [AttributeError]; the scan
    catches it and returns the record of the first server node, a list
    that is neither empty nor complete. *)
Theorem extract_repositories_credentials_partial :
  (repositories_try Sample.w_partial Sample.settings_path).2 = Some AttributeError /\
  extract_repositories_credentials Sample.w_partial = Ok [Sample.repo1] /\
  extract_repositories_credentials Sample.w_partial <> Ok [].
Proof.
  assert (H : extract_repositories_credentials Sample.w_partial = Ok [Sample.repo1])
    by (vm_compute; reflexivity).
  split_and!; [vm_compute; reflexivity | exact H | rewrite H; discriminate].
Qed.

(** ** The master password *)

Section MasterPassword.

Variable w : World.
Variable home : string.
Hypothesis Hhome : USERPROFILE w = Some home.

(** C6. The home directory known, the lookup never raises. The security
    file there and parsed, it returns the text of the first [master]
    element below the root, in document order, as it is: nothing is
    stripped, and an element without text gives [None]. It returns
    [None] when the file is not there, when it does not parse, and when
    no element below the root is a [master]. *)
Theorem extract_master_password_spec :
  let location := home +:+ "\.m2\settings-security.xml" in
  (exists master_password, extract_master_password w = Ok master_password) /\
  (forall config node others,
      isfile w location = true -> ET_parse w location = Some config ->
      ET.findall config "master" = node :: others ->
      extract_master_password w = Ok (ET.text node)) /\
  (isfile w location = false -> extract_master_password w = Ok None) /\
  (ET_parse w location = None -> extract_master_password w = Ok None) /\
  (forall config,
      ET_parse w location = Some config -> ET.findall config "master" = [] ->
      extract_master_password w = Ok None).
Proof.
  intros location. unfold extract_master_password, master_password_try, parse, ET.find.
  rewrite Hhome. cbn [need_str bind]. fold location.
  split_and!.
  - destruct (isfile w location); [|eauto].
    destruct (ET_parse w location) as [config|]; cbn [bind]; [|eauto].
    destruct (head _); eauto.
  - intros config node others -> Hparse Hfind. rewrite Hparse. cbn [bind].
    rewrite Hfind. reflexivity.
  - intros ->. reflexivity.
  - intros ->. cbn [bind]. by destruct (isfile w location).
  - intros config -> Hfind. cbn [bind]. rewrite Hfind.
    by destruct (isfile w location).
Qed.

End MasterPassword.

(** ** The loop of [run] *)

Section RunLoop.

Variable w : World.
Variable master_password : option string.

(** C4. The first record whose turn raises ends the loop: the exception
    leaves [run], whatever the records after it are, and no list is
    returned. *)
Theorem run_loop_first_failure (before after : list (gmap string string))
    (creds : gmap string string) (e : exn)
    (pwd_found : list (gmap string (option string))) :
  Forall (fun c => exists values, run_body w master_password c = Ok values) before ->
  run_body w master_password creds = Raise e ->
  run_loop w master_password (before ++ creds :: after) pwd_found = Raise e.
Proof.
  intros Hbefore Hcreds. revert pwd_found.
  induction Hbefore as [|c before [values Hc] _ IH]; intros pwd_found.
  - cbn [app run_loop]. rewrite Hcreds. reflexivity.
  - cbn [app run_loop]. rewrite Hc. cbn [bind]. apply IH.
Qed.

(** When every turn completes, the loop returns one record for each
    raw record, in order. *)
Lemma run_loop_all_ok (repos_creds : list (gmap string string))
    (pwd_found : list (gmap string (option string))) :
  Forall (fun c => exists values, run_body w master_password c = Ok values) repos_creds ->
  exists found,
    run_loop w master_password repos_creds pwd_found = Ok (pwd_found ++ found)%list /\
    Forall2 (fun c values => run_body w master_password c = Ok values) repos_creds found.
Proof.
  intros H. revert pwd_found.
  induction H as [|c rest [values Hc] _ IH]; intros pwd_found.
  - exists []. split; [by rewrite app_nil_r|constructor].
  - destruct (IH (pwd_found ++ [values])%list) as (found & Hrun & Hall).
    exists (values :: found). cbn [run_loop]. rewrite Hc. cbn [bind].
    rewrite Hrun, <- app_assoc. split; [reflexivity|by constructor].
Qed.

End RunLoop.

(** ** The properties at sample inputs *)

Lemma run_body_one_shape_witness :
  run_body Sample.w_key (Some "m") Sample.repo3 = Ok Sample.repo3_values /\
  is_Some (Sample.repo3_values !! "Id") /\
  is_Some (Sample.repo3_values !! "Username") /\
  exactly_one (shape_password Sample.repo3_values)
              (shape_encrypted Sample.repo3_values)
              (shape_private_key Sample.repo3_values).
Proof.
  split; [vm_compute; reflexivity|].
  apply (run_body_one_shape Sample.w_key (Some "m") Sample.repo3).
  vm_compute; reflexivity.
Defined.

Lemma run_body_private_key_witness :
  run_body Sample.w_key None Sample.repo3 = Ok Sample.repo3_values /\
  exists content,
    open_read Sample.w_key (Py.replace "${user.home}\.ssh\id_rsa" "${user.home}" Sample.home)
      = Some content /\
    Sample.repo3_values !! "PrivateKey" =
      Some (Some (Py.strip (Py.replace content Py.newline ""))) /\
    Py.replace content Py.newline "" = Py.without "010"%char content /\
    Sample.repo3_values !! "Passphrase" = Some <$> Sample.repo3 !! "passphrase" /\
    Sample.repo3_values !! "Password" = None.
Proof.
  assert (H : run_body Sample.w_key None Sample.repo3 = Ok Sample.repo3_values)
    by (vm_compute; reflexivity).
  split; [exact H|].
  destruct (run_body_private_key Sample.w_key None Sample.repo3
              "${user.home}\.ssh\id_rsa" Sample.home) as [Hfields _];
    [vm_compute; reflexivity ..|].
  exact (Hfields Sample.repo3_values H).
Defined.

Lemma run_body_missing_key_file_witness :
  use_key_auth Sample.w_key Sample.repo5 = Ok false /\
  run_body Sample.w_key None Sample.repo5 = Raise (KeyError "password").
Proof.
  destruct (run_body_missing_key_file Sample.w_key None Sample.repo5
              "${user.home}\.ssh\missing" Sample.home)
    as (Hkey & _ & Hfail); [vm_compute; reflexivity ..|].
  split; [exact Hkey|].
  apply Hfail; [vm_compute; reflexivity | eexists; vm_compute; reflexivity ..].
Defined.

Lemma run_body_no_passphrase_witness :
  Sample.repo4 !! "passphrase" = Some "s3cret" /\
  exists values,
    run_body Sample.w_key None Sample.repo4 = Ok values /\
    values !! "Passphrase" = None.
Proof.
  split; [vm_compute; reflexivity|].
  destruct (run_body_no_passphrase Sample.w_key None Sample.repo4) as [Hno Hok].
  - right. exists "${user.home}\.ssh\missing", Sample.home.
    split_and!; vm_compute; reflexivity.
  - destruct Hok as [values Hvalues]; [eexists; vm_compute; reflexivity ..|].
    exists values. split; [exact Hvalues|]. apply Hno, Hvalues.
Defined.

Lemma extract_repositories_credentials_spec_witness :
  let server_nodes := ET.findall Sample.settings3 (settings_namespace +:+ "server") in
  exists repos_creds,
    extract_repositories_credentials Sample.w_settings = Ok repos_creds /\
    length repos_creds <= length server_nodes /\
    (exists k, repos_creds = omap server_record (take k server_nodes)) /\
    Forall allow_listed repos_creds /\
    (forall server_node, server_node ∈ server_nodes ->
       has_recognised_field server_node = false ->
       server_record server_node = None) /\
    repos_creds =
      (servers_loop
         (filter (fun s => has_recognised_field s = true) server_nodes) []).1.
Proof.
  apply (extract_repositories_credentials_spec Sample.w_settings Sample.home);
    vm_compute; reflexivity.
Defined.

Lemma extract_master_password_spec_witness :
  extract_master_password Sample.w_master = Ok (Some " {abc} ").
Proof.
  destruct (extract_master_password_spec Sample.w_master Sample.home)
    as (_ & Hfirst & _); [vm_compute; reflexivity|].
  apply (Hfirst Sample.security_nested (Sample.master (Some " {abc} ")) []);
    vm_compute; reflexivity.
Defined.

Lemma run_loop_first_failure_witness :
  run_loop Sample.w_key None ([Sample.repo1] ++ Sample.no_id :: [Sample.repo3]) [] =
    Raise (KeyError "id").
Proof.
  apply (run_loop_first_failure Sample.w_key None [Sample.repo1] [Sample.repo3]).
  - constructor; [|constructor]. exists Sample.repo1_values. vm_compute; reflexivity.
  - vm_compute; reflexivity.
Defined.

(** The first [master] element below the root decides: a root that is
    itself the [master] element is not looked at, and an empty [master]
    element before one with a text gives [None]. *)
Example extract_master_password_first_below_root :
  extract_master_password Sample.w_root_master = Ok None /\
  extract_master_password Sample.w_second_master = Ok None.
Proof. split; vm_compute; reflexivity. Qed.

(** ** Where the code departs from the specification *)

(** A record without [id] before a well-formed one: the well-formed one
    alone would be completed, and [run] raises without returning it. *)
Lemma run_loop_counterexample :
  extract_repositories_credentials Sample.w_batch = Ok [Sample.no_id; Sample.repo1] /\
  run_body Sample.w_batch None Sample.no_id = Raise (KeyError "id") /\
  run_body Sample.w_batch None Sample.repo1 = Ok Sample.repo1_values /\
  run Sample.w_batch = Raise (KeyError "id") /\
  run Sample.w_batch <> Ok [Sample.repo1_values].
Proof.
  assert (H : run Sample.w_batch = Raise (KeyError "id")) by (vm_compute; reflexivity).
  split_and!; [vm_compute; reflexivity .. | exact H | rewrite H; discriminate].
Qed.

(** ** Further sample inputs *)

(** A password made of the two braces alone counts as encrypted, and
    without a master password the key is stored with the value [None]. *)
Example run_body_braces_alone (w : World) :
  run_body w None
    (<["id" := "r"]> (<["username" := "u"]> (<["password" := " {} "]> ∅))) =
  Ok (<["Id" := Some "r"]> (<["Username" := Some "u"]>
        (<["SymetricEncryptionKey" := None]>
           (<["PasswordEncrypted" := Some "{}"]> ∅)))).
Proof. vm_compute; reflexivity. Qed.

(** The line feeds of a key file are taken out, not turned into blanks. *)
Example private_key_text :
  Py.strip (Py.replace Sample.key_text Py.newline "") = "AAABBB".
Proof. reflexivity. Qed.

(** The whole of [run] on three servers, the second with nothing to
    extract. *)
Example run_settings :
  run Sample.w_settings =
    Ok [Sample.repo1_values;
        <["Id" := Some "repo3"]> (<["Username" := Some "bob"]>
          (<["PrivateKey" := Some "AAABBB"]>
            (<["Passphrase" := Some "s3cret"]> ∅)))].
Proof. vm_compute; reflexivity. Qed.

(** * Further properties *)

(** ** The children of a server node *)

Section Children.

(** The dictionary after the loop: under each key, the value the child
    nodes leave there or, when they leave none, the one it had. *)
Lemma children_loop_lookup (child_nodes : list ET.Element)
    (creds creds' : gmap string string) (key : string) :
  children_loop child_nodes creds = Ok creds' ->
  creds' !! key =
    match last_value key child_nodes with
    | Some value => Some value
    | None => creds !! key
    end.
Proof.
  revert creds. induction child_nodes as [|child_node rest IH]; intros creds.
  - intros [= <-]. reflexivity.
  - cbn [children_loop last_value]. cbv zeta. unfold recognised, bare_tag.
    case_bool_decide as Htag; cbn [andb].
    + destruct (ET.text child_node) as [t|]; [|discriminate].
      intros H. rewrite (IH _ H). destruct (last_value key rest); [reflexivity|].
      case_bool_decide as Hkey; cbn [fmap option_fmap option_map].
      * rewrite Hkey. apply lookup_insert_eq.
      * by apply lookup_insert_ne.
    + intros H. rewrite (IH _ H). by destruct (last_value key rest).
Qed.

(** The loop raises exactly on a recognised child without text, and
    then an [AttributeError], whatever the dictionary built so far. *)
Lemma children_loop_raises (child_nodes : list ET.Element)
    (creds : gmap string string) :
  if existsb empty_recognised child_nodes
  then children_loop child_nodes creds = Raise AttributeError
  else exists creds', children_loop child_nodes creds = Ok creds'.
Proof.
  revert creds. induction child_nodes as [|child_node rest IH]; intros creds.
  - cbn. eauto.
  - cbn [existsb children_loop]. cbv zeta. unfold empty_recognised at 1, recognised.
    case_bool_decide as Htag; cbn [andb orb]; [|apply IH].
    destruct (ET.text child_node) as [t|]; [|reflexivity].
    rewrite bool_decide_eq_false_2 by discriminate. cbn [orb]. apply IH.
Qed.

(** The loop only adds keys. *)
Lemma children_loop_keeps (child_nodes : list ET.Element)
    (creds creds' : gmap string string) (key : string) :
  children_loop child_nodes creds = Ok creds' ->
  is_Some (creds !! key) -> is_Some (creds' !! key).
Proof.
  intros H. rewrite (children_loop_lookup _ _ _ key H).
  destruct (last_value key child_nodes); eauto.
Qed.

Lemma children_loop_non_empty (child_nodes : list ET.Element)
    (creds creds' : gmap string string) :
  children_loop child_nodes creds = Ok creds' ->
  existsb recognised child_nodes = true ->
  0 < size creds'.
Proof.
  revert creds. induction child_nodes as [|child_node rest IH]; intros creds;
    [discriminate|].
  cbn [children_loop existsb]. cbv zeta.
  change (bool_decide (Py.replace (ET.tag child_node) settings_namespace ""
                         ∈ nodes_to_extract)) with (recognised child_node).
  destruct (recognised child_node); cbn [orb]; [|apply IH].
  destruct (ET.text child_node) as [t|]; [|discriminate].
  intros H _.
  assert (Hin : is_Some (creds' !! Py.replace (ET.tag child_node) settings_namespace "")).
  { eapply children_loop_keeps; [exact H|]. rewrite lookup_insert_eq. eauto. }
  destruct Hin as [value Hvalue].
  destruct (decide (size creds' = 0)) as [Hz|]; [|lia].
  apply map_size_empty_inv in Hz. rewrite Hz, lookup_empty in Hvalue. discriminate.
Qed.

(** X1. Duplicate children: the last one wins. When a server node adds
    a record, the record has under each key the stripped text of the
    last recognised child of that name, and the key is missing when
    there is no such child. *)
Theorem server_record_last_wins (server_node : ET.Element)
    (creds : gmap string string) (key : string) :
  server_record server_node = Some creds ->
  creds !! key = last_value key (ET.children server_node).
Proof.
  unfold server_record.
  destruct (children_loop (ET.children server_node) ∅) as [creds'|] eqn:H; [|discriminate].
  case_bool_decide; [|discriminate]. intros [= <-].
  rewrite (children_loop_lookup _ _ _ key H), lookup_empty.
  by destruct (last_value key (ET.children server_node)).
Qed.

End Children.

Lemma server_record_last_wins_witness :
  server_record Cases.server_twice =
    Some (<["id" := "r"]> (<["password" := "second"]> ∅)) /\
  (<["id" := "r"]> (<["password" := "second"]> ∅ : gmap string string)) !! "password" =
    last_value "password" (ET.children Cases.server_twice).
Proof.
  assert (H : server_record Cases.server_twice =
                Some (<["id" := "r"]> (<["password" := "second"]> ∅)))
    by (vm_compute; reflexivity).
  split; [exact H|].
  exact (server_record_last_wins Cases.server_twice _ "password" H).
Defined.

(** ** The scan, server node by server node *)

Section ServersLoop.

Lemma server_record_is_Some (server_node : ET.Element) :
  raises server_node = false ->
  (is_Some (server_record server_node) <-> has_recognised_field server_node = true).
Proof.
  unfold raises, server_record, has_recognised_field. intros Hr.
  pose proof (children_loop_raises (ET.children server_node) ∅) as H.
  rewrite Hr in H. destruct H as [creds H]. rewrite H.
  destruct (existsb recognised (ET.children server_node)) eqn:He.
  - rewrite bool_decide_eq_true_2 by (eapply children_loop_non_empty; eauto).
    split; eauto.
  - rewrite (children_loop_unrecognised _ _ He) in H. injection H as <-.
    rewrite bool_decide_eq_false_2 by (rewrite map_size_empty; lia).
    split; [intros [? ?]|]; discriminate.
Qed.

(** The loop, exactly: the records of the server nodes before the first
    one that raises, and the exception if there is one. *)
Lemma servers_loop_exact (server_nodes : list ET.Element) :
  servers_loop server_nodes [] =
    (omap server_record (good_prefix server_nodes),
     if existsb raises server_nodes then Some AttributeError else None).
Proof.
  induction server_nodes as [|server_node rest IH]; [reflexivity|].
  cbn [servers_loop good_prefix existsb].
  pose proof (children_loop_raises (ET.children server_node) ∅) as H.
  fold (raises server_node) in H.
  destruct (raises server_node); cbn [orb].
  - rewrite H. reflexivity.
  - destruct H as [creds H]. rewrite H, servers_loop_app, IH. cbn [fst snd].
    cbn [omap list_omap]. fold (omap server_record (good_prefix rest)).
    unfold server_record at 2. rewrite H. by case_bool_decide.
Qed.

Lemma good_prefix_all (server_nodes : list ET.Element) :
  Forall (fun s => raises s = false) server_nodes ->
  good_prefix server_nodes = server_nodes /\ existsb raises server_nodes = false.
Proof.
  induction 1 as [|server_node rest Hr _ [IH1 IH2]]; [done|].
  cbn [good_prefix existsb]. rewrite Hr, IH1, IH2. done.
Qed.

Lemma length_records (server_nodes : list ET.Element) :
  Forall (fun s => raises s = false) server_nodes ->
  length (omap server_record server_nodes) =
  length (filter (fun s => has_recognised_field s = true) server_nodes).
Proof.
  induction 1 as [|server_node rest Hr _ IH]; [reflexivity|].
  cbn [omap list_omap]. fold (omap server_record rest).
  pose proof (server_record_is_Some _ Hr) as Hsome.
  destruct (has_recognised_field server_node) eqn:Hf.
  - rewrite filter_cons_True by exact Hf.
    destruct (proj2 Hsome eq_refl) as [creds ->]. cbn [length]. by rewrite IH.
  - rewrite filter_cons_False by congruence.
    destruct (server_record server_node) as [creds|] eqn:Hrec; [|exact IH].
    destruct Hsome as [Hsome _]. discriminate Hsome. eauto.
Qed.

End ServersLoop.

Section ScanExact.

Variable w : World.
Variable home : string.
Variable settings : ET.Element.
Hypothesis Hhome : USERPROFILE w = Some home.
Hypothesis Hfile : isfile w (home +:+ "\.m2\settings.xml") = true.
Hypothesis Hparse : ET_parse w (home +:+ "\.m2\settings.xml") = Some settings.

Lemma extract_repositories_credentials_eq :
  extract_repositories_credentials w =
    Ok (servers_loop (ET.findall settings (settings_namespace +:+ "server")) []).1.
Proof.
  unfold extract_repositories_credentials. rewrite Hhome. cbn [need_str bind].
  rewrite Hfile. unfold repositories_try, parse. rewrite Hparse. reflexivity.
Qed.

(** X2. The settings file there and parsed, the scan returns exactly the
    records of the server nodes that come before the first server node
    with a recognised child without text; that server node and all the
    server nodes after it are lost, and the exception caught is an
    [AttributeError]. *)
Theorem extract_repositories_credentials_exact :
  let server_nodes := ET.findall settings (settings_namespace +:+ "server") in
  extract_repositories_credentials w =
    Ok (omap server_record (good_prefix server_nodes)) /\
  (repositories_try w (home +:+ "\.m2\settings.xml")).2 =
    (if existsb raises server_nodes then Some AttributeError else None).
Proof.
  intros server_nodes. split.
  - rewrite extract_repositories_credentials_eq.
    fold server_nodes. by rewrite servers_loop_exact.
  - unfold repositories_try, parse. rewrite Hparse.
    fold server_nodes. by rewrite servers_loop_exact.
Qed.

(** X3. When no server node has a recognised child without text, nothing
    is lost: the scan returns the record of every server node that has
    at least one recognised child, one record for each, in the order of
    the document. *)
Theorem extract_repositories_credentials_complete :
  let server_nodes := ET.findall settings (settings_namespace +:+ "server") in
  Forall (fun s => raises s = false) server_nodes ->
  exists repos_creds,
    extract_repositories_credentials w = Ok repos_creds /\
    repos_creds = omap server_record server_nodes /\
    length repos_creds =
      length (filter (fun s => has_recognised_field s = true) server_nodes) /\
    Forall2 (fun s creds => server_record s = Some creds)
      (filter (fun s => has_recognised_field s = true) server_nodes) repos_creds.
Proof.
  intros server_nodes Hall. exists (omap server_record server_nodes).
  destruct (good_prefix_all _ Hall) as [Hgood _].
  split_and!.
  - rewrite extract_repositories_credentials_eq. fold server_nodes.
    by rewrite servers_loop_exact, Hgood.
  - reflexivity.
  - by apply length_records.
  - clear Hgood. induction Hall as [|server_node rest Hr _ IH]; [constructor|].
    cbn [omap list_omap]. fold (omap server_record rest).
    pose proof (server_record_is_Some _ Hr) as Hsome.
    destruct (has_recognised_field server_node) eqn:Hf.
    + rewrite filter_cons_True by exact Hf.
      destruct (proj2 Hsome eq_refl) as [creds Hc]. rewrite Hc. by constructor.
    + rewrite filter_cons_False by congruence.
      destruct (server_record server_node) as [creds|] eqn:Hrec; [|exact IH].
      destruct Hsome as [Hsome _]. discriminate Hsome. eauto.
Qed.

(** X5. Server nodes are found by their qualified tag only: when no
    element below the root has the tag of the settings namespace
    followed by [server], as in a settings file written without the
    namespace, the scan returns the empty list. *)
Theorem extract_repositories_credentials_unqualified :
  (forall e, e ∈ flat_map ET.iter (ET.children settings) ->
             ET.tag e <> settings_namespace +:+ "server") ->
  extract_repositories_credentials w = Ok [].
Proof.
  intros Hno. rewrite extract_repositories_credentials_eq.
  unfold ET.findall.
  replace (filter _ _) with (@nil ET.Element); [reflexivity|].
  symmetry. induction (flat_map ET.iter (ET.children settings)) as [|e l IH];
    [reflexivity|].
  rewrite filter_cons_False by (apply Hno; left).
  apply IH. intros e' He'. apply Hno. by right.
Qed.

End ScanExact.

(** ** More on the string methods *)

Section MoreStrings.

Lemma append_cons (a : ascii) (s t : string) :
  String a s +:+ t = String a (s +:+ t).
Proof. reflexivity. Qed.

Lemma append_empty (t : string) : "" +:+ t = t.
Proof. reflexivity. Qed.

Lemma startswith_app (p s : string) : Py.startswith (p +:+ s) p = true.
Proof.
  induction p as [|a p IH]; [reflexivity|].
  rewrite append_cons. cbn [Py.startswith]. by rewrite Ascii.eqb_refl, IH.
Qed.

(** The characters still to pass over are passed over. *)
Lemma replace_from_skip (old new t s : string) :
  Py.replace_from old new (String.length t) (t +:+ s) = Py.replace_from old new 0 s.
Proof.
  induction t as [|a t IH]; [reflexivity|].
  rewrite append_cons. cbn [String.length Py.replace_from]. exact IH.
Qed.

(** An occurrence of [old] at the start is replaced and the scan goes
    on after it. *)
Lemma replace_prefix (old new s : string) :
  old <> "" ->
  Py.replace (old +:+ s) old new = new +:+ Py.replace s old new.
Proof.
  destruct old as [|a old]; [done|]. intros _. unfold Py.replace.
  pose proof (startswith_app (String a old) s) as Hstart.
  rewrite append_cons in *. cbn [Py.replace_from]. rewrite Hstart.
  cbn [String.length Nat.sub]. rewrite Nat.sub_0_r.
  by rewrite replace_from_skip.
Qed.

(** Without an occurrence of [old] nothing is replaced. *)
Lemma replace_absent (s old new : string) :
  old <> "" -> contains s old = false -> Py.replace s old new = s.
Proof.
  destruct old as [|a old]; [done|]. intros _. unfold Py.replace.
  induction s as [|c s IH]; [reflexivity|].
  cbn [contains]. intros [Hstart Hrest]%orb_false_elim.
  cbn [Py.replace_from]. rewrite Hstart. by rewrite (IH Hrest).
Qed.

Lemma endswith_suffix (s p : string) :
  Py.endswith s p = true <-> exists before, s = before +:+ p.
Proof.
  induction s as [|c s IH]; cbn [Py.endswith].
  - rewrite orb_false_r, String.eqb_eq. split.
    + intros <-. by exists "".
    + intros [[|? ?] H]; [exact H|discriminate].
  - rewrite orb_true_iff, String.eqb_eq, IH. split.
    + intros [<- | [before ->]]; [by exists ""|by exists (String c before)].
    + intros [[|c' before] H]; [by left|].
      injection H as <- ->. right. by exists before.
Qed.

(** The test of the encrypted case: an opening brace, anything, a closing
    brace. *)
Lemma braces_iff (s : string) :
  Py.startswith s "{" && Py.endswith s "}" = true <->
  exists middle, s = "{" +:+ middle +:+ "}".
Proof.
  rewrite andb_true_iff, endswith_suffix. split.
  - intros [Hstart [before ->]].
    destruct before as [|c before].
    + discriminate.
    + rewrite append_cons in Hstart. cbn [Py.startswith] in Hstart.
      rewrite andb_true_r in Hstart. apply Ascii.eqb_eq in Hstart as <-.
      by exists before.
  - intros [middle ->]. split; [reflexivity|].
    by exists (String "{" middle).
Qed.

Lemma rstrip_no_trailing_space (s : string) : no_trailing_space (Py.rstrip s).
Proof.
  induction s as [|c s IH]; cbn [Py.rstrip]; [exact I|].
  destruct (Py.rstrip s) as [|d r].
  - destruct (Py.is_space c) eqn:Hc; [exact I|exact Hc].
  - exact IH.
Qed.

(** A stripped string neither starts nor ends with a whitespace
    character. *)
Lemma strip_trimmed (s : string) :
  Py.no_leading_space (Py.strip s) /\ no_trailing_space (Py.strip s).
Proof.
  split.
  - apply rstrip_no_leading_space, lstrip_no_leading_space.
  - apply rstrip_no_trailing_space.
Qed.

Lemma In_lstrip (c : ascii) (s : string) :
  In c (list_ascii_of_string (Py.lstrip s)) -> In c (list_ascii_of_string s).
Proof.
  induction s as [|a s IH]; cbn [Py.lstrip]; [done|].
  destruct (Py.is_space a); [|done]. intros H. right. by apply IH.
Qed.

Lemma In_rstrip (c : ascii) (s : string) :
  In c (list_ascii_of_string (Py.rstrip s)) -> In c (list_ascii_of_string s).
Proof.
  induction s as [|a s IH]; cbn [Py.rstrip]; [done|].
  destruct (Py.rstrip s) as [|d r].
  - destruct (Py.is_space a); [done|]. intros [<-|[]]. by left.
  - intros [<-|H]; [by left|]. right. by apply IH.
Qed.

Lemma In_strip (c : ascii) (s : string) :
  In c (list_ascii_of_string (Py.strip s)) -> In c (list_ascii_of_string s).
Proof. intros H. by apply In_lstrip, In_rstrip. Qed.

Lemma not_In_without (c : ascii) (s : string) :
  ~ In c (list_ascii_of_string (Py.without c s)).
Proof.
  induction s as [|a s IH]; cbn [Py.without]; [by intros []|].
  destruct (Ascii.eqb c a) eqn:Hc; [exact IH|].
  intros [->|H]; [|by apply IH]. by rewrite Ascii.eqb_refl in Hc.
Qed.

End MoreStrings.

Example replace_prefix_twice :
  Py.replace "abab-ab" "ab" "x" = "xx-x".
Proof. reflexivity. Qed.

(** X4. A child node is recognised by its bare name, with or without the
    namespace before it: under the namespace or not, it has the same
    bare tag, so qualified and unqualified children of a server node are
    taken alike. *)
Theorem recognised_unqualified (name : string) (text : option string)
    (child_nodes : list ET.Element) :
  bare_tag (ET.mkElement (settings_namespace +:+ name) text child_nodes) =
    bare_tag (ET.mkElement name text child_nodes) /\
  recognised (ET.mkElement (settings_namespace +:+ name) text child_nodes) =
    recognised (ET.mkElement name text child_nodes).
Proof.
  assert (H : bare_tag (ET.mkElement (settings_namespace +:+ name) text child_nodes) =
              bare_tag (ET.mkElement name text child_nodes)).
  { unfold bare_tag. cbn [ET.tag]. by rewrite replace_prefix. }
  split; [exact H|]. unfold recognised. unfold bare_tag in H. by rewrite H.
Qed.

(** ** More on the classification of one record *)

Section MoreClassifier.

Variable w : World.
Variable master_password : option string.

Lemma use_key_auth_false_inv (creds : gmap string string) :
  use_key_auth w creds = Ok false -> key_auth_not_applicable w creds.
Proof.
  unfold use_key_auth, key_auth_not_applicable.
  destruct (creds !! "privateKey") as [pk|]; [|by left].
  destruct (USERPROFILE w) as [home|]; cbn [need_str bind]; [|discriminate].
  intros [= H]. right. by exists pk, home.
Qed.

Lemma use_key_auth_true_inv (creds : gmap string string) :
  use_key_auth w creds = Ok true ->
  exists pk home,
    creds !! "privateKey" = Some pk /\ USERPROFILE w = Some home /\
    isfile w (Py.replace pk "${user.home}" home) = true.
Proof.
  unfold use_key_auth.
  destruct (creds !! "privateKey") as [pk|]; [|discriminate].
  destruct (USERPROFILE w) as [home|]; cbn [need_str bind]; [|discriminate].
  intros [= H]. by exists pk, home.
Qed.

Lemma use_key_auth_raise_inv (creds : gmap string string) (e : exn) :
  use_key_auth w creds = Raise e ->
  e = TypeError /\ is_Some (creds !! "privateKey") /\ USERPROFILE w = None.
Proof.
  unfold use_key_auth.
  destruct (creds !! "privateKey") as [pk|]; [|discriminate].
  destruct (USERPROFILE w) as [home|]; cbn [need_str bind]; [discriminate|].
  intros [= <-]. eauto.
Qed.

(** Why a turn raises. *)
Lemma run_body_raise_inv (creds : gmap string string) (e : exn) :
  run_body w master_password creds = Raise e ->
  (e = KeyError "id" /\ creds !! "id" = None) \/
  (e = KeyError "username" /\ is_Some (creds !! "id") /\
   creds !! "username" = None) \/
  (e = TypeError /\ is_Some (creds !! "id") /\ is_Some (creds !! "username") /\
   is_Some (creds !! "privateKey") /\ USERPROFILE w = None) \/
  (e = KeyError "password" /\ is_Some (creds !! "id") /\
   is_Some (creds !! "username") /\
   key_auth_not_applicable w creds /\ creds !! "password" = None) \/
  (e = IOError /\ is_Some (creds !! "id") /\ is_Some (creds !! "username") /\
   exists pk home,
     creds !! "privateKey" = Some pk /\ USERPROFILE w = Some home /\
     isfile w (Py.replace pk "${user.home}" home) = true /\
     open_read w (Py.replace pk "${user.home}" home) = None).
Proof.
  unfold run_body, getitem.
  destruct (creds !! "id") as [id|] eqn:Hid; cbn [bind];
    [|intros [= <-]; by left].
  destruct (creds !! "username") as [username|] eqn:Hu; cbn [bind];
    [|intros [= <-]; right; left; eauto].
  destruct (use_key_auth w creds) as [[|]|e'] eqn:Hk; cbn [bind negb].
  - apply use_key_auth_true_inv in Hk as (pk & home & Hpk & Hhome & Hfile).
    unfold private_key_branch, getitem, read_file.
    rewrite Hpk, Hhome. cbn [need_str bind].
    destruct (open_read w _) eqn:Hread; cbn [bind]; [discriminate|].
    intros [= <-]. do 4 right. split_and!; eauto. by exists pk, home.
  - apply use_key_auth_false_inv in Hk.
    unfold password_branch, getitem.
    destruct (creds !! "password") as [password|]; cbn [bind].
    + destruct (_ && _); discriminate.
    + intros [= <-]. do 3 right. left. split_and!; eauto.
  - apply use_key_auth_raise_inv in Hk as (-> & Hpk & Hhome).
    intros [= <-]. do 2 right. left. split_and!; eauto.
Qed.

(** X6. The [KeyError]s and the [TypeError] of one turn of the loop of
    [run], each with its exact cause and in the order the code meets
    them: [KeyError] on [id] exactly when [id] is missing; on [username]
    exactly when [id] is there and [username] is missing; on [password]
    exactly when both are there, key authentication does not apply and
    [password] is missing; on no other key; [TypeError] exactly when
    [id] and [username] are there, the record has a [privateKey] and
    [USERPROFILE] is not set. And with [id] and [username] there, a
    private key file that is there and cannot be read makes the turn
    raise, neither a [KeyError] nor a [TypeError]. *)
Theorem run_body_raises (creds : gmap string string) :
  (forall key,
     run_body w master_password creds = Raise (KeyError key) <->
     (key = "id" /\ creds !! "id" = None) \/
     (key = "username" /\ is_Some (creds !! "id") /\
      creds !! "username" = None) \/
     (key = "password" /\ is_Some (creds !! "id") /\
      is_Some (creds !! "username") /\
      key_auth_not_applicable w creds /\ creds !! "password" = None)) /\
  (run_body w master_password creds = Raise TypeError <->
     is_Some (creds !! "id") /\ is_Some (creds !! "username") /\
     is_Some (creds !! "privateKey") /\ USERPROFILE w = None) /\
  (is_Some (creds !! "id") -> is_Some (creds !! "username") ->
   forall pk home,
     creds !! "privateKey" = Some pk -> USERPROFILE w = Some home ->
     isfile w (Py.replace pk "${user.home}" home) = true ->
     open_read w (Py.replace pk "${user.home}" home) = None ->
     exists e, run_body w master_password creds = Raise e /\
               e <> TypeError /\ forall key, e <> KeyError key).
Proof.
  split_and!.
  - intros key. split.
    + intros H. apply run_body_raise_inv in H
        as [[He ?] | [[He ?] | [[He ?] | [[He ?] | [He ?]]]]];
        try discriminate He; injection He as ->; auto.
    + unfold run_body, getitem.
      intros [(-> & Hid) | [(-> & [id Hid] & Hu) | (-> & [id Hid] & [u Hu] & Hna & Hp)]].
      * by rewrite Hid.
      * by rewrite Hid, Hu.
      * rewrite Hid, Hu. cbn [bind].
        rewrite (use_key_auth_not_applicable _ _ Hna). cbn [bind negb].
        unfold password_branch, getitem. by rewrite Hp.
  - split.
    + intros H. apply run_body_raise_inv in H
        as [[He ?] | [[He ?] | [[He ?] | [[He ?] | [He ?]]]]];
        try discriminate He; done.
    + unfold run_body, getitem. intros ([id Hid] & [u Hu] & [pk Hpk] & Hhome).
      rewrite Hid, Hu. cbn [bind]. unfold use_key_auth. by rewrite Hpk, Hhome.
  - intros [id Hid] [u Hu] pk home Hpk Hhome Hfile Hread.
    exists IOError. split; [|split; [discriminate|intros key; discriminate]].
    unfold run_body, getitem. rewrite Hid, Hu. cbn [bind]. unfold use_key_auth.
    rewrite Hpk, Hhome. cbn [need_str bind]. rewrite Hfile. cbn [negb].
    unfold private_key_branch, getitem, read_file.
    rewrite Hpk, Hhome. cbn [need_str bind]. by rewrite Hread.
Qed.

(** X7. [Id] and [Username] of every completed record are the [id] and
    the [username] of the raw record, as they are. *)
Theorem run_body_id_username (creds : gmap string string)
    (values : gmap string (option string)) :
  run_body w master_password creds = Ok values ->
  values !! "Id" = Some (creds !! "id") /\
  values !! "Username" = Some (creds !! "username") /\
  is_Some (creds !! "id") /\ is_Some (creds !! "username").
Proof.
  intros H. apply run_body_inv in H as (id & username & Hid & Hu & [[_ H] | [_ H]]).
  - apply password_branch_inv in H as (password & _ & [[_ ->] | [_ ->]]);
      rewrite Hid, Hu; split_and!; eauto; by simplify_map_eq.
  - apply private_key_branch_inv in H as (pk & home & content & _ & _ & _ & ->).
    rewrite Hid, Hu.
    destruct (creds !! "passphrase"); split_and!; eauto; by simplify_map_eq.
Qed.

(** X8. Key authentication not applying, a completed record is of the
    encrypted shape exactly when the stripped password is an opening
    brace, anything, and a closing brace (so at least two characters:
    a brace alone is a plain password), and of the plain shape exactly
    otherwise; in both cases what is stored is the stripped password. *)
Theorem run_body_encrypted_iff (creds : gmap string string) (password : string)
    (values : gmap string (option string)) :
  key_auth_not_applicable w creds ->
  creds !! "password" = Some password ->
  run_body w master_password creds = Ok values ->
  let pwd := Py.strip password in
  ((exists middle, pwd = "{" +:+ middle +:+ "}") ->
     values !! "PasswordEncrypted" = Some (Some pwd) /\
     values !! "SymetricEncryptionKey" = Some master_password /\
     values !! "Password" = None) /\
  (~ (exists middle, pwd = "{" +:+ middle +:+ "}") ->
     values !! "Password" = Some (Some pwd) /\
     values !! "PasswordEncrypted" = None /\
     values !! "SymetricEncryptionKey" = None).
Proof.
  intros Hna Hp H pwd.
  apply run_body_inv in H as (id & username & _ & _ & [[_ H] | [Hk _]]).
  2:{ rewrite (use_key_auth_not_applicable _ _ Hna) in Hk. discriminate. }
  apply password_branch_inv in H as (password' & Hp' & H).
  rewrite Hp in Hp'. injection Hp' as <-. fold pwd in H.
  destruct H as [[Hb ->] | [Hb ->]].
  - apply braces_iff in Hb. split; [|done].
    intros _. split_and!; by simplify_map_eq.
  - split.
    + intros Hm. apply braces_iff in Hm. congruence.
    + intros _. split_and!; by simplify_map_eq.
Qed.

End MoreClassifier.

Section KeyFile.

Variable w : World.
Variable master_password : option string.

(** X9. A [privateKey] without the placeholder [${user.home}] is probed
    as it is written, whatever the home directory; and still
    [USERPROFILE] must be set, for without it [use_key_auth] raises a
    [TypeError] before any file is looked at. *)
Theorem use_key_auth_no_placeholder (creds : gmap string string) (pk : string) :
  creds !! "privateKey" = Some pk ->
  contains pk "${user.home}" = false ->
  use_key_auth w creds =
    match USERPROFILE w with
    | Some _ => Ok (isfile w pk)
    | None => Raise TypeError
    end.
Proof.
  intros Hpk Hno. unfold use_key_auth. rewrite Hpk.
  destruct (USERPROFILE w) as [home|]; cbn [need_str bind]; [|reflexivity].
  by rewrite replace_absent.
Qed.

(** X10. The [PrivateKey] of a completed record has no line feed in it
    and neither starts nor ends with a whitespace character. *)
Theorem run_body_private_key_no_newline (creds : gmap string string)
    (values : gmap string (option string)) (key : string) :
  run_body w master_password creds = Ok values ->
  values !! "PrivateKey" = Some (Some key) ->
  ~ In "010"%char (list_ascii_of_string key) /\
  Py.no_leading_space key /\ no_trailing_space key.
Proof.
  intros H Hkey.
  apply run_body_inv in H as (id & username & _ & _ & [[_ H] | [_ H]]).
  - apply password_branch_inv in H as (password & _ & [[_ ->] | [_ ->]]);
      by simplify_map_eq.
  - apply private_key_branch_inv in H as (pk & home & content & _ & _ & _ & ->).
    assert (key = Py.strip (Py.replace content Py.newline "")) as ->.
    { destruct (creds !! "passphrase"); by simplify_map_eq. }
    split; [|apply strip_trimmed].
    intros Hin. apply In_strip in Hin. rewrite replace_newline in Hin.
    by apply not_In_without in Hin.
Qed.

(** X11. A record without [privateKey] is classified without a look at
    the world: no environment variable, no file. Two worlds give the
    same result. *)
Theorem run_body_password_only (w' : World) (creds : gmap string string) :
  creds !! "privateKey" = None ->
  run_body w master_password creds = run_body w' master_password creds.
Proof.
  intros Hpk. unfold run_body, use_key_auth. by rewrite Hpk.
Qed.

End KeyFile.

(** ** More on the scan and on the master password *)

Section MoreScan.

Variable w : World.

Lemma server_record_trimmed (server_node : ET.Element)
    (creds : gmap string string) (key value : string) :
  server_record server_node = Some creds ->
  creds !! key = Some value ->
  Py.no_leading_space value /\ no_trailing_space value.
Proof.
  intros Hrec Hvalue.
  destruct (server_record_allow_listed _ _ Hrec key value Hvalue) as [_ <-].
  apply strip_trimmed.
Qed.

(** X12. Whatever the world, no value of a scanned record starts or ends
    with a whitespace character, every key is one of the five nodes to
    extract, and no record is empty. *)
Theorem extract_repositories_credentials_trimmed
    (repos_creds : list (gmap string string)) :
  extract_repositories_credentials w = Ok repos_creds ->
  Forall (fun creds =>
            creds <> ∅ /\
            forall key value, creds !! key = Some value ->
              key ∈ nodes_to_extract /\
              Py.no_leading_space value /\ no_trailing_space value)
         repos_creds.
Proof.
  unfold extract_repositories_credentials, repositories_try, parse.
  destruct (USERPROFILE w) as [home|]; cbn [need_str bind]; [|discriminate].
  destruct (isfile w _); [|intros [= <-]; constructor].
  destruct (ET_parse w _) as [settings|]; [|intros [= <-]; constructor].
  intros [= <-].
  destruct (servers_loop_prefix
              (ET.findall settings (settings_namespace +:+ "server"))) as [k ->].
  apply Forall_forall. intros creds Hin.
  apply list_elem_of_omap in Hin as (server_node & _ & Hrec).
  split.
  - intros ->. unfold server_record in Hrec.
    destruct (children_loop _ _) as [creds|]; [|discriminate].
    case_bool_decide as Hsize; [|discriminate]. injection Hrec as ->.
    rewrite map_size_empty in Hsize. lia.
  - intros key value Hvalue. split.
    + by destruct (server_record_allow_listed _ _ Hrec key value Hvalue).
    + by eapply server_record_trimmed.
Qed.

(** The only exception of the scan and of the lookup of the master
    password is the [TypeError] of an unset [USERPROFILE]. *)
Lemma extract_master_password_raise_inv (e : exn) :
  extract_master_password w = Raise e -> e = TypeError /\ USERPROFILE w = None.
Proof.
  unfold extract_master_password.
  destruct (USERPROFILE w); cbn [need_str bind]; [|by intros [= <-]].
  destruct (isfile w _); [|discriminate].
  destruct (master_password_try w _); discriminate.
Qed.

Lemma extract_repositories_credentials_raise_inv (e : exn) :
  extract_repositories_credentials w = Raise e ->
  e = TypeError /\ USERPROFILE w = None.
Proof.
  unfold extract_repositories_credentials.
  destruct (USERPROFILE w); cbn [need_str bind]; [|by intros [= <-]].
  destruct (isfile w _); discriminate.
Qed.

(** X13. The lookup of the master password invents nothing: a password
    it returns is the text, character for character, of an element
    named [master] below the root of a security file that is there and
    parses. *)
Theorem extract_master_password_sound (master : string) :
  extract_master_password w = Ok (Some master) ->
  exists home config node,
    USERPROFILE w = Some home /\
    isfile w (home +:+ "\.m2\settings-security.xml") = true /\
    ET_parse w (home +:+ "\.m2\settings-security.xml") = Some config /\
    node ∈ flat_map ET.iter (ET.children config) /\
    ET.tag node = "master" /\ ET.text node = Some master.
Proof.
  unfold extract_master_password, master_password_try, parse, ET.find.
  destruct (USERPROFILE w) as [home|]; cbn [need_str bind]; [|discriminate].
  destruct (isfile w _) eqn:Hfile; [|discriminate].
  destruct (ET_parse w _) as [config|] eqn:Hparse; cbn [bind]; [|discriminate].
  destruct (head (ET.findall config "master")) as [node|] eqn:Hhead; [|discriminate].
  intros [= Htext]. exists home, config, node.
  apply head_Some_elem_of in Hhead. unfold ET.findall in Hhead.
  apply list_elem_of_filter in Hhead as [Htag Hin].
  by split_and!.
Qed.

End MoreScan.

(** ** The whole of [run] *)

Section Run.

Variable w : World.

Lemma run_loop_inv (master_password : option string)
    (repos_creds : list (gmap string string))
    (pwd_found out : list (gmap string (option string))) :
  run_loop w master_password repos_creds pwd_found = Ok out ->
  exists found,
    out = (pwd_found ++ found)%list /\
    Forall2 (fun creds values => run_body w master_password creds = Ok values)
            repos_creds found.
Proof.
  revert pwd_found. induction repos_creds as [|creds rest IH]; intros pwd_found.
  - intros [= <-]. exists []. split; [by rewrite app_nil_r|constructor].
  - cbn [run_loop].
    destruct (run_body w master_password creds) as [values|] eqn:Hc;
      cbn [bind]; [|discriminate].
    intros H. apply IH in H as (found & -> & Hall).
    exists (values :: found). split; [by rewrite <- app_assoc|by constructor].
Qed.

Lemma run_loop_raise_inv (master_password : option string)
    (repos_creds : list (gmap string string))
    (pwd_found : list (gmap string (option string))) (e : exn) :
  run_loop w master_password repos_creds pwd_found = Raise e ->
  exists creds, creds ∈ repos_creds /\ run_body w master_password creds = Raise e.
Proof.
  revert pwd_found. induction repos_creds as [|creds rest IH]; intros pwd_found;
    [discriminate|].
  cbn [run_loop].
  destruct (run_body w master_password creds) as [values|e'] eqn:Hc; cbn [bind].
  - intros H. apply IH in H as (creds' & Hin & Hraise).
    exists creds'. split; [by right|exact Hraise].
  - intros [= <-]. exists creds. split; [by left|exact Hc].
Qed.

Lemma run_inv (out : list (gmap string (option string))) :
  run w = Ok out ->
  exists master_password repos_creds,
    extract_master_password w = Ok master_password /\
    extract_repositories_credentials w = Ok repos_creds /\
    Forall2 (fun creds values => run_body w master_password creds = Ok values)
            repos_creds out.
Proof.
  unfold run.
  destruct (extract_master_password w) as [master_password|]; cbn [bind]; [|discriminate].
  destruct (extract_repositories_credentials w) as [repos_creds|]; cbn [bind];
    [|discriminate].
  intros H. apply run_loop_inv in H as (found & -> & Hall).
  by exists master_password, repos_creds.
Qed.

(** Every scanned value is stripped. *)
Lemma scanned_trimmed (repos_creds : list (gmap string string)) :
  extract_repositories_credentials w = Ok repos_creds ->
  Forall (fun creds => forall key value, creds !! key = Some value ->
            Py.no_leading_space value /\ no_trailing_space value) repos_creds.
Proof.
  unfold extract_repositories_credentials, repositories_try, parse.
  destruct (USERPROFILE w) as [home|]; cbn [need_str bind]; [|discriminate].
  destruct (isfile w _); [|intros [= <-]; constructor].
  destruct (ET_parse w _) as [settings|]; [|intros [= <-]; constructor].
  intros [= <-].
  destruct (servers_loop_prefix
              (ET.findall settings (settings_namespace +:+ "server"))) as [k ->].
  apply Forall_forall. intros creds Hin.
  apply list_elem_of_omap in Hin as (server_node & _ & Hrec).
  intros key value. by apply (server_record_trimmed server_node creds).
Qed.

Lemma run_body_trimmed (master_password : option string)
    (creds : gmap string string) (values : gmap string (option string)) :
  (forall key value, creds !! key = Some value ->
     Py.no_leading_space value /\ no_trailing_space value) ->
  run_body w master_password creds = Ok values ->
  forall key value,
    values !! key = Some (Some value) -> key <> "SymetricEncryptionKey" ->
    Py.no_leading_space value /\ no_trailing_space value.
Proof.
  intros Hcreds H key value Hvalue Hkey.
  apply run_body_inv in H as (id & username & Hid & Hu & [[_ H] | [_ H]]).
  - apply password_branch_inv in H as (password & _ & [[_ ->] | [_ ->]]);
      repeat (apply lookup_insert_Some in Hvalue as [[<- Hvalue] | [_ Hvalue]];
              [try congruence; injection Hvalue as <-; eauto using strip_trimmed|]);
      by rewrite lookup_empty in Hvalue.
  - apply private_key_branch_inv in H as (pk & home & content & _ & _ & _ & ->).
    destruct (creds !! "passphrase") as [passphrase|] eqn:Hpass;
      repeat (apply lookup_insert_Some in Hvalue as [[<- Hvalue] | [_ Hvalue]];
              [try congruence; injection Hvalue as <-; eauto using strip_trimmed|]);
      by rewrite lookup_empty in Hvalue.
Qed.

(** X14. [run] is all or nothing: when it returns a list, the master
    password was looked up, the scan was made, and the list has exactly
    one completed record for each scanned record, in the same order. *)
Theorem run_all_or_nothing (out : list (gmap string (option string))) :
  run w = Ok out ->
  exists master_password repos_creds,
    extract_master_password w = Ok master_password /\
    extract_repositories_credentials w = Ok repos_creds /\
    length out = length repos_creds /\
    Forall2 (fun creds values => run_body w master_password creds = Ok values)
            repos_creds out.
Proof.
  intros H. apply run_inv in H as (master_password & repos_creds & Hm & Hs & Hall).
  exists master_password, repos_creds. split_and!; try done.
  symmetry. by eapply Forall2_length.
Qed.

(** X15. What leaves [run] and what does not. A [TypeError] leaves it
    exactly when [USERPROFILE] is not set. The exceptions of [ET.parse]
    and the [AttributeError] of the scan never leave it. A [KeyError]
    that leaves it is on [id], [username] or [password], and then a
    scanned record lacks that key. *)
Theorem run_exceptions :
  (run w = Raise TypeError <-> USERPROFILE w = None) /\
  run w <> Raise ParseError /\
  run w <> Raise AttributeError /\
  (forall key, run w = Raise (KeyError key) ->
     key ∈ ["id"; "username"; "password"] /\
     exists repos_creds creds,
       extract_repositories_credentials w = Ok repos_creds /\
       creds ∈ repos_creds /\ creds !! key = None).
Proof.
  assert (Hinv : forall e, run w = Raise e ->
            (e = TypeError /\ USERPROFILE w = None) \/
            (USERPROFILE w <> None /\
             exists master_password repos_creds creds,
               extract_repositories_credentials w = Ok repos_creds /\
               creds ∈ repos_creds /\
               run_body w master_password creds = Raise e)).
  { intros e. unfold run.
    destruct (extract_master_password w) as [master_password|e1] eqn:Hm; cbn [bind].
    2:{ intros [= <-]. left. by apply extract_master_password_raise_inv. }
    destruct (extract_repositories_credentials w) as [repos_creds|e2] eqn:Hs; cbn [bind].
    2:{ intros [= <-]. left. by apply extract_repositories_credentials_raise_inv. }
    intros H. apply run_loop_raise_inv in H as (creds & Hin & H).
    right. split.
    - intros Hnone. unfold extract_master_password in Hm.
      rewrite Hnone in Hm. discriminate.
    - by exists master_password, repos_creds, creds. }
  split_and!.
  - split.
    + intros H. apply Hinv in H as [[_ H] | [Hhome (mp & repos & creds & _ & _ & H)]];
        [exact H|].
      apply run_body_raise_inv in H
        as [[He ?] | [[He ?] | [(_ & _ & _ & _ & Hnone) | [[He ?] | [He ?]]]]];
        [discriminate He | discriminate He | done | discriminate He | discriminate He].
    + intros Hnone. unfold run, extract_master_password. by rewrite Hnone.
  - intros H. apply Hinv in H as [[He _] | [_ (mp & repos & creds & _ & _ & H)]];
      [discriminate He|].
    apply run_body_raise_inv in H
      as [[He ?] | [[He ?] | [[He ?] | [[He ?] | [He ?]]]]]; discriminate He.
  - intros H. apply Hinv in H as [[He _] | [_ (mp & repos & creds & _ & _ & H)]];
      [discriminate He|].
    apply run_body_raise_inv in H
      as [[He ?] | [[He ?] | [[He ?] | [[He ?] | [He ?]]]]]; discriminate He.
  - intros key H.
    apply Hinv in H as [[He _] | [_ (mp & repos & creds & Hs & Hin & H)]];
      [discriminate He|].
    apply run_body_raise_inv in H
      as [[He Hk] | [(He & _ & Hk) | [[He _] | [(He & _ & _ & _ & Hk) | [He _]]]]];
      try discriminate He; injection He as ->;
      (split; [set_solver | by exists repos, creds]).
Qed.

(** X16. One master password for the whole run: in the list [run]
    returns, every record with the encryption key has under it what the
    lookup of the master password returned, a string or [None]. *)
Theorem run_one_master_password (out : list (gmap string (option string))) :
  run w = Ok out ->
  exists master_password,
    extract_master_password w = Ok master_password /\
    Forall (fun values => forall key,
              values !! "SymetricEncryptionKey" = Some key ->
              key = master_password) out.
Proof.
  intros H. apply run_inv in H as (master_password & repos_creds & Hm & _ & Hall).
  exists master_password. split; [exact Hm|].
  induction Hall as [|creds values rest out Hbody _ IH]; constructor; [|exact IH].
  intros key Hkey.
  apply run_body_inv in Hbody as (id & username & _ & _ & [[_ H] | [_ H]]).
  - apply password_branch_inv in H as (password & _ & [[_ ->] | [_ ->]]);
      by simplify_map_eq.
  - apply private_key_branch_inv in H as (pk & home & content & _ & _ & _ & ->).
    destruct (creds !! "passphrase"); by simplify_map_eq.
Qed.

(** X17. From the files to the output: in the list [run] returns, every
    string other than the master password ([Id], [Username], [Password],
    [PasswordEncrypted], [PrivateKey], [Passphrase]) neither starts nor
    ends with a whitespace character. *)
Theorem run_trimmed (out : list (gmap string (option string))) :
  run w = Ok out ->
  Forall (fun values => forall key value,
            values !! key = Some (Some value) ->
            key <> "SymetricEncryptionKey" ->
            Py.no_leading_space value /\ no_trailing_space value) out.
Proof.
  intros H. apply run_inv in H as (master_password & repos_creds & _ & Hs & Hall).
  apply scanned_trimmed in Hs.
  induction Hall as [|creds values rest out Hbody _ IH]; constructor.
  - apply Forall_inv in Hs. by eapply run_body_trimmed.
  - apply IH. by apply Forall_inv_tail in Hs.
Qed.

End Run.

(** ** The further properties at sample inputs *)

Lemma extract_repositories_credentials_exact_witness :
  extract_repositories_credentials Sample.w_partial = Ok [Sample.repo1] /\
  (let server_nodes :=
     ET.findall (Sample.settings [Sample.server1; Sample.server_empty_passphrase;
                                  Sample.server3])
                (settings_namespace +:+ "server") in
   extract_repositories_credentials Sample.w_partial =
     Ok (omap server_record (good_prefix server_nodes)) /\
   (repositories_try Sample.w_partial (Sample.home +:+ "\.m2\settings.xml")).2 =
     (if existsb raises server_nodes then Some AttributeError else None)).
Proof.
  split; [vm_compute; reflexivity|].
  apply (extract_repositories_credentials_exact Sample.w_partial Sample.home);
    vm_compute; reflexivity.
Defined.

Lemma extract_repositories_credentials_complete_witness :
  let server_nodes := ET.findall Sample.settings3 (settings_namespace +:+ "server") in
  exists repos_creds,
    extract_repositories_credentials Sample.w_settings = Ok repos_creds /\
    repos_creds = omap server_record server_nodes /\
    length repos_creds =
      length (filter (fun s => has_recognised_field s = true) server_nodes) /\
    Forall2 (fun s creds => server_record s = Some creds)
      (filter (fun s => has_recognised_field s = true) server_nodes) repos_creds.
Proof.
  apply (extract_repositories_credentials_complete Sample.w_settings Sample.home);
    try (vm_compute; reflexivity).
  apply (bool_decide_unpack _). vm_compute. exact I.
Defined.

Lemma extract_repositories_credentials_unqualified_witness :
  extract_repositories_credentials Cases.w_unqualified = Ok [].
Proof.
  apply (extract_repositories_credentials_unqualified
           Cases.w_unqualified Sample.home Cases.settings_unqualified);
    try (vm_compute; reflexivity).
  apply Forall_forall. apply (bool_decide_unpack _). vm_compute. exact I.
Defined.

Lemma run_body_id_username_witness :
  Sample.repo1_values !! "Id" = Some (Sample.repo1 !! "id") /\
  Sample.repo1_values !! "Username" = Some (Sample.repo1 !! "username") /\
  is_Some (Sample.repo1 !! "id") /\ is_Some (Sample.repo1 !! "username").
Proof.
  apply (run_body_id_username Sample.w_key None Sample.repo1).
  vm_compute; reflexivity.
Defined.

Lemma run_body_encrypted_iff_witness :
  Sample.repo2_values !! "PasswordEncrypted" = Some (Some "{ENC}") /\
  Sample.repo2_values !! "SymetricEncryptionKey" = Some (Some "m") /\
  Sample.repo2_values !! "Password" = None.
Proof.
  destruct (run_body_encrypted_iff Sample.w_key (Some "m") Sample.repo2 "{ENC}"
              Sample.repo2_values) as [Hencrypted _].
  - left. vm_compute; reflexivity.
  - vm_compute; reflexivity.
  - vm_compute; reflexivity.
  - apply Hencrypted. by exists "ENC".
Defined.

Lemma use_key_auth_no_placeholder_witness :
  use_key_auth Sample.w_key Cases.repo_absolute =
    match USERPROFILE Sample.w_key with
    | Some _ => Ok (isfile Sample.w_key "C:\Users\bob\.ssh\id_rsa")
    | None => Raise TypeError
    end.
Proof.
  apply (use_key_auth_no_placeholder Sample.w_key Cases.repo_absolute);
    vm_compute; reflexivity.
Defined.

Lemma run_body_private_key_no_newline_witness :
  In "010"%char (list_ascii_of_string Sample.key_text) /\
  ~ In "010"%char (list_ascii_of_string "AAABBB") /\
  Py.no_leading_space "AAABBB" /\ no_trailing_space "AAABBB".
Proof.
  split; [vm_compute; auto|].
  apply (run_body_private_key_no_newline Sample.w_key None Sample.repo3
           Sample.repo3_values); vm_compute; reflexivity.
Defined.

Lemma run_body_password_only_witness :
  run_body Sample.w_key None Sample.repo1 =
  run_body Sample.w_settings None Sample.repo1.
Proof.
  apply (run_body_password_only Sample.w_key None Sample.w_settings Sample.repo1).
  vm_compute; reflexivity.
Defined.

Lemma extract_repositories_credentials_trimmed_witness :
  exists repos_creds,
    extract_repositories_credentials Sample.w_settings = Ok repos_creds /\
    length repos_creds = 2 /\
    Forall (fun creds =>
              creds <> ∅ /\
              forall key value, creds !! key = Some value ->
                key ∈ nodes_to_extract /\
                Py.no_leading_space value /\ no_trailing_space value)
           repos_creds.
Proof.
  destruct (extract_repositories_credentials Sample.w_settings)
    as [repos_creds|] eqn:H; [|vm_compute in H; discriminate].
  exists repos_creds. split; [reflexivity|]. split.
  - vm_compute in H. injection H as <-. reflexivity.
  - exact (extract_repositories_credentials_trimmed Sample.w_settings repos_creds H).
Defined.

Lemma extract_master_password_sound_witness :
  exists home config node,
    USERPROFILE Sample.w_master = Some home /\
    isfile Sample.w_master (home +:+ "\.m2\settings-security.xml") = true /\
    ET_parse Sample.w_master (home +:+ "\.m2\settings-security.xml") = Some config /\
    node ∈ flat_map ET.iter (ET.children config) /\
    ET.tag node = "master" /\ ET.text node = Some " {abc} ".
Proof.
  apply (extract_master_password_sound Sample.w_master " {abc} ").
  vm_compute; reflexivity.
Defined.

Lemma run_all_or_nothing_witness :
  exists master_password repos_creds,
    extract_master_password Cases.w_encrypted = Ok master_password /\
    extract_repositories_credentials Cases.w_encrypted = Ok repos_creds /\
    length [Sample.repo1_values; Cases.repo2_values] = length repos_creds /\
    Forall2 (fun creds values =>
               run_body Cases.w_encrypted master_password creds = Ok values)
            repos_creds [Sample.repo1_values; Cases.repo2_values].
Proof.
  apply (run_all_or_nothing Cases.w_encrypted).
  vm_compute; reflexivity.
Defined.

Lemma run_one_master_password_witness :
  exists master_password,
    extract_master_password Cases.w_encrypted = Ok master_password /\
    Forall (fun values => forall key,
              values !! "SymetricEncryptionKey" = Some key ->
              key = master_password)
           [Sample.repo1_values; Cases.repo2_values].
Proof.
  apply (run_one_master_password Cases.w_encrypted).
  vm_compute; reflexivity.
Defined.

Lemma run_trimmed_witness :
  Forall (fun values => forall key value,
            values !! key = Some (Some value) ->
            key <> "SymetricEncryptionKey" ->
            Py.no_leading_space value /\ no_trailing_space value)
         [Sample.repo1_values; Cases.repo2_values].
Proof.
  apply (run_trimmed Cases.w_encrypted).
  vm_compute; reflexivity.
Defined.
